(** * Krishi AI demo frontend: setup scripts, 3D crop field and dashboard

    A shallow embedding of

    - [setup.bat] and [setup.ps1] (module [Setup]),
    - the [InstancedCrops] and [FarmField] components of the 3D landing
      scene (module [Scene]),
    - the [LanguageSelector], [YieldPredictionCard] and [Dashboard]
      components of [Dashboard.jsx] (module [Dash]),

    followed by the properties established for them.

    Conventions.  In module [Scene] a JavaScript number is a real number:
    the arithmetic is exact and the numbers are finite.  Where rounding
    or NaN decides what the program does, module [Binary64] evaluates the
    same formulas on binary64 floating-point numbers, as the program
    does.  Time is a natural number of milliseconds.  React hooks are
    modelled by what they do for a component that is mounted once and is
    not wrapped in StrictMode (see [main.jsx]). *)

From Stdlib Require Import ZArith List String Bool Arith Lia.
From Stdlib Require Import Reals Lra.
From Stdlib Require Import DecimalString.
From Stdlib Require Floats.
Import ListNotations.

Set Implicit Arguments.

(* ================================================================== *)
(** * Setup scripts                                                    *)
(* ================================================================== *)

Module Setup.

Local Open Scope Z_scope.
Local Open Scope string_scope.

(** The external commands of the scripts, one constructor per call site,
    in the order in which both scripts list them. *)
Inductive command : Type :=
| PythonVersion      (* python --version *)
| NodeVersion        (* node --version *)
| CdFrontend         (* cd frontend           / Set-Location frontend *)
| NpmInstall         (* call npm install      / npm install *)
| CdBackend          (* cd ..\backend         / Set-Location ..\backend *)
| VenvBackend        (* python -m venv venv *)
| ActivateBackend    (* call venv\Scripts\activate / & .\venv\Scripts\Activate.ps1 *)
| PipBackend         (* pip install -r requirements.txt *)
| CdMl               (* cd ..\ml-service      / Set-Location ..\ml-service *)
| VenvMl             (* python -m venv venv *)
| ActivateMl         (* call venv\Scripts\activate / & .\venv\Scripts\Activate.ps1 *)
| PipMl.             (* pip install -r requirements.txt *)

Definition command_eqb (a b : command) : bool :=
  match a, b with
  | PythonVersion, PythonVersion | NodeVersion, NodeVersion
  | CdFrontend, CdFrontend | NpmInstall, NpmInstall
  | CdBackend, CdBackend | VenvBackend, VenvBackend
  | ActivateBackend, ActivateBackend | PipBackend, PipBackend
  | CdMl, CdMl | VenvMl, VenvMl
  | ActivateMl, ActivateMl | PipMl, PipMl => true
  | _, _ => false
  end.

(** What the machine answers when a command is invoked: the program could
    not be started at all, or it ran and returned an exit code. *)
Inductive outcome : Type :=
| NotFound
| Exited (code : Z).

(** The machine the script runs on. *)
Definition host : Type := command -> outcome.

Definition succeeded (o : outcome) : bool :=
  match o with
  | Exited 0 => true
  | _ => false
  end.

(** What the script does, as seen from outside. *)
Inductive event : Type :=
| Print (msg : string)   (* echo / Write-Host *)
| Run (c : command)
| Pause.                 (* pause / Read-Host "Press Enter to exit" *)

(** A script step either falls through to the next line or terminates the
    whole script with an exit code. *)
Inductive flow (S A : Type) : Type :=
| Continue (a : A) (s : S)
| Terminated (code : Z) (s : S).

Arguments Continue {S A} a s.
Arguments Terminated {S A} code s.

Definition script (S A : Type) : Type := S -> flow S A.

Definition ret {S A} (a : A) : script S A := fun s => Continue a s.

Definition bind {S A B} (m : script S A) (k : A -> script S B) : script S B :=
  fun s =>
    match m s with
    | Continue a s' => k a s'
    | Terminated code s' => Terminated code s'
    end.

Definition exit_with {S A} (code : Z) : script S A := fun s => Terminated code s.

Declare Scope script_scope.
Delimit Scope script_scope with script.
Notation "c1 ;; c2" := (bind c1 (fun _ => c2))
  (at level 61, right associativity) : script_scope.
Local Open Scope script_scope.

(** ** cmd.exe *)

Module Bat.

Record shell : Type := { errorlevel : Z; log : list event }.

Definition emit (e : event) : script shell unit :=
  fun s => Continue tt {| errorlevel := errorlevel s; log := log s ++ [e] |}.

Definition echo (msg : string) : script shell unit := emit (Print msg).
Definition pause : script shell unit := emit Pause.

(** Running a command sets [%errorlevel%]: to the program's exit code, or
    to 9009 when cmd.exe cannot find the program.  (The value left by a
    step the script does not test is overwritten by the next program
    before any [if] reads it.) *)
Definition level_of (o : outcome) : Z :=
  match o with
  | NotFound => 9009
  | Exited code => code
  end.

Definition run (h : host) (c : command) : script shell unit :=
  fun s => Continue tt {| errorlevel := level_of (h c); log := log s ++ [Run c] |}.

(** [if %errorlevel% neq 0 ( body )] *)
Definition if_errorlevel_neq_0 (body : script shell unit) : script shell unit :=
  fun s => if Z.eqb (errorlevel s) 0 then Continue tt s else body s.

(** [exit /b 1] preceded by the message and the pause of each guard. *)
Definition fail (msg : string) : script shell unit :=
  echo msg ;; pause ;; exit_with 1.

Definition setup_bat (h : host) : script shell unit :=
  echo "Setting up Odisha Krishi AI Platform..." ;;
  echo "" ;;
  echo "Checking if Python is installed..." ;;
  run h PythonVersion ;;
  if_errorlevel_neq_0
    (fail "Python is not installed. Please install Python 3.9+ from https://python.org") ;;
  echo "Checking if Node.js is installed..." ;;
  run h NodeVersion ;;
  if_errorlevel_neq_0
    (fail "Node.js is not installed. Please install Node.js 18+ from https://nodejs.org") ;;
  echo "" ;;
  echo "Setting up Frontend..." ;;
  run h CdFrontend ;;
  run h NpmInstall ;;
  if_errorlevel_neq_0 (fail "Failed to install frontend dependencies") ;;
  echo "" ;;
  echo "Setting up Backend..." ;;
  run h CdBackend ;;
  run h VenvBackend ;;
  run h ActivateBackend ;;
  run h PipBackend ;;
  if_errorlevel_neq_0 (fail "Failed to install backend dependencies") ;;
  echo "" ;;
  echo "Setting up ML Service..." ;;
  run h CdMl ;;
  run h VenvMl ;;
  run h ActivateMl ;;
  run h PipMl ;;
  if_errorlevel_neq_0 (fail "Failed to install ML service dependencies") ;;
  echo "" ;;
  echo "Setup completed successfully!" ;;
  echo "" ;;
  echo "To run the application:" ;;
  echo "1. Open 3 separate command prompts" ;;
  echo "2. Run 'npm start' in the frontend directory" ;;
  echo "3. Run 'uvicorn app:app --reload --port 8000' in the backend directory" ;;
  echo "4. Run 'uvicorn app:app --reload --port 8001' in the ml-service directory" ;;
  echo "" ;;
  pause.

(** Exit code and log of a whole run.  A batch file that reaches its last
    line returns the current [%errorlevel%]. *)
Definition execute (h : host) : Z * list event :=
  match setup_bat h {| errorlevel := 0; log := [] |} with
  | Continue _ s => (errorlevel s, log s)
  | Terminated code s => (code, log s)
  end.

End Bat.

(** ** PowerShell *)

Module Ps1.

(** [$LASTEXITCODE] is [$null] until a native program has run. *)
Record shell : Type := { lastexitcode : option Z; log : list event }.

Definition emit (e : event) : script shell unit :=
  fun s => Continue tt {| lastexitcode := lastexitcode s; log := log s ++ [e] |}.

Definition write_host (msg : string) : script shell unit := emit (Print msg).
Definition read_host : script shell unit := emit Pause.

(** A native program outside [try]: when it cannot be started PowerShell
    writes an error and goes on with the next statement, leaving
    [$LASTEXITCODE] as it was; when it runs, [$LASTEXITCODE] becomes its
    exit code. *)
Definition native (h : host) (c : command) : script shell unit :=
  fun s =>
    Continue tt
      {| lastexitcode :=
           match h c with
           | NotFound => lastexitcode s
           | Exited code => Some code
           end;
         log := log s ++ [Run c] |}.

(** A cmdlet ([Set-Location]) or a script invoked with [&]: never touches
    [$LASTEXITCODE], and its errors do not stop the script. *)
Definition cmdlet (c : command) : script shell unit := emit (Run c).

(** [try { $v = prog --version 2>&1; Write-Host found } catch { handler }]:
    the handler runs exactly when the program cannot be started (the only
    exception a native call raises); an exit code of any value is not an
    exception. *)
Definition try_version (h : host) (c : command) (found : string)
    (handler : script shell unit) : script shell unit :=
  fun s =>
    let s' := {| lastexitcode := lastexitcode s; log := log s ++ [Run c] |} in
    match h c with
    | NotFound => handler s'
    | Exited code =>
        write_host found {| lastexitcode := Some code; log := log s' |}
    end.

(** [if ($LASTEXITCODE -ne 0) { body }]; [$null -ne 0] is true. *)
Definition if_lastexitcode_ne_0 (body : script shell unit) : script shell unit :=
  fun s =>
    match lastexitcode s with
    | Some 0 => Continue tt s
    | _ => body s
    end.

Definition fail (msg : string) : script shell unit :=
  write_host msg ;; read_host ;; exit_with 1.

Definition setup_ps1 (h : host) : script shell unit :=
  write_host "Setting up Odisha Krishi AI Platform..." ;;
  write_host "" ;;
  write_host "Checking if Python is installed..." ;;
  try_version h PythonVersion "Python found: $pythonVersion"
    (fail "Python is not installed. Please install Python 3.9+ from https://python.org") ;;
  write_host "Checking if Node.js is installed..." ;;
  try_version h NodeVersion "Node.js found: $nodeVersion"
    (fail "Node.js is not installed. Please install Node.js 18+ from https://nodejs.org") ;;
  write_host "" ;;
  write_host "Setting up Frontend..." ;;
  cmdlet CdFrontend ;;
  native h NpmInstall ;;
  if_lastexitcode_ne_0 (fail "Failed to install frontend dependencies") ;;
  write_host "" ;;
  write_host "Setting up Backend..." ;;
  cmdlet CdBackend ;;
  native h VenvBackend ;;
  cmdlet ActivateBackend ;;
  native h PipBackend ;;
  if_lastexitcode_ne_0 (fail "Failed to install backend dependencies") ;;
  write_host "" ;;
  write_host "Setting up ML Service..." ;;
  cmdlet CdMl ;;
  native h VenvMl ;;
  cmdlet ActivateMl ;;
  native h PipMl ;;
  if_lastexitcode_ne_0 (fail "Failed to install ML service dependencies") ;;
  write_host "" ;;
  write_host "Setup completed successfully!" ;;
  write_host "" ;;
  write_host "To run the application:" ;;
  write_host "1. Open 3 separate PowerShell windows" ;;
  write_host "2. Run 'npm start' in the frontend directory" ;;
  write_host "3. Run 'uvicorn app:app --reload --port 8000' in the backend directory" ;;
  write_host "4. Run 'uvicorn app:app --reload --port 8001' in the ml-service directory" ;;
  write_host "" ;;
  read_host.

(** A script file that reaches its last line exits with code 0. *)
Definition execute (h : host) : Z * list event :=
  match setup_ps1 h {| lastexitcode := None; log := [] |} with
  | Continue _ s => (0, log s)
  | Terminated code s => (code, log s)
  end.

End Ps1.

(** ** Reading a run *)

Fixpoint commands_run (l : list event) : list command :=
  match l with
  | [] => []
  | Run c :: l' => c :: commands_run l'
  | _ :: l' => commands_run l'
  end.

(** All call sites in script order. *)
Definition script_order : list command :=
  [PythonVersion; NodeVersion; CdFrontend; NpmInstall;
   CdBackend; VenvBackend; ActivateBackend; PipBackend;
   CdMl; VenvMl; ActivateMl; PipMl].

(** The two prerequisite checks and the three install commands: the call
    sites that are followed by a guard. *)
Definition guarded : list command :=
  [PythonVersion; NodeVersion; NpmInstall; PipBackend; PipMl].

(** The first guarded command that does not succeed on [h], if any. *)
Definition first_failure (h : host) : option command :=
  find (fun c => negb (succeeded (h c))) guarded.

(** The part of [l] up to and including the first occurrence of [c]. *)
Fixpoint upto (c : command) (l : list command) : list command :=
  match l with
  | [] => []
  | x :: l' => if command_eqb x c then [x] else x :: upto c l'
  end.

(** What the guard after [c] in [setup.ps1] reacts to, when every install
    program can be started: a version check that cannot be started, an
    install command that returns a nonzero exit code. *)
Definition ps1_detects (h : host) (c : command) : bool :=
  match c with
  | PythonVersion | NodeVersion =>
      match h c with
      | NotFound => true
      | Exited _ => false
      end
  | _ => negb (succeeded (h c))
  end.

Definition installers : list command := [NpmInstall; PipBackend; PipMl].

(** The message each guard prints before it stops the script; both
    scripts use the same five texts. *)
Definition failure_message (c : command) : string :=
  match c with
  | PythonVersion =>
      "Python is not installed. Please install Python 3.9+ from https://python.org"
  | NodeVersion =>
      "Node.js is not installed. Please install Node.js 18+ from https://nodejs.org"
  | NpmInstall => "Failed to install frontend dependencies"
  | PipBackend => "Failed to install backend dependencies"
  | PipMl => "Failed to install ML service dependencies"
  | _ => ""
  end.

Definition success_message : string := "Setup completed successfully!".

Fixpoint printed (msg : string) (l : list event) : bool :=
  match l with
  | [] => false
  | Print m :: l' => String.eqb m msg || printed msg l'
  | _ :: l' => printed msg l'
  end.

Definition is_guarded (c : command) : bool := existsb (command_eqb c) guarded.

(** The last two events of a log, most recent first. *)
Definition last_two (l : list event) : list event := firstn 2 (rev l).

(** The last command a log shows. *)
Definition last_command (l : list event) : option command :=
  match rev (commands_run l) with
  | [] => None
  | c :: _ => Some c
  end.

(** How a run can end: with exit code 0, every command run and the success
    message printed; or with exit code 1, no success message, and as last
    two events the pause and the failure message of the last command run,
    a guarded one. *)
Definition ends_well (r : Z * list event) : Prop :=
  fst r = 0 /\ printed success_message (snd r) = true /\
  commands_run (snd r) = script_order.

Definition ends_at_guard (r : Z * list event) : Prop :=
  fst r = 1 /\ printed success_message (snd r) = false /\
  match last_command (snd r) with
  | Some c =>
      is_guarded c = true /\
      last_two (snd r) = [Pause; Print (failure_message c)]
  | None => False
  end.

(** A version check that either cannot be started or succeeds. *)
Definition clear_cut (o : outcome) : bool :=
  match o with
  | NotFound | Exited 0 => true
  | Exited _ => false
  end.

(** Hosts used as concrete inputs. *)

(** Every guarded command succeeds, every other step fails. *)
Definition only_guarded_work : host :=
  fun c => if is_guarded c then Exited 0 else Exited 1.

Definition healthy : host := fun _ => Exited 0.

(** [python] resolves to a launcher that starts but reports failure (as the
    Windows app-execution alias does when no interpreter is installed);
    everything else works. *)
Definition python_reports_failure : host :=
  fun c => match c with PythonVersion => Exited 9009 | _ => Exited 0 end.

Definition no_node : host :=
  fun c => match c with NodeVersion => NotFound | _ => Exited 0 end.

Definition pip_backend_fails : host :=
  fun c => match c with PipBackend => Exited 1 | _ => Exited 0 end.

(** [node] is installed without [npm]. *)
Definition no_npm : host :=
  fun c => match c with NpmInstall => NotFound | _ => Exited 0 end.

End Setup.

(* ================================================================== *)
(** * The 3D crop field ([Landing3D])                                  *)
(* ================================================================== *)

Module Scene.

Local Open Scope R_scope.

(** ** The JavaScript environment *)

(** One call of a pseudo-random generator: a number in [0, 1). *)
Record draw : Type := { value :> R; in_unit : 0 <= value < 1 }.

(** A generator, given by the sequence of numbers its calls return. *)
Definition generator : Type := nat -> draw.

(** [Math.seedrandom] is a constructor taking an optional seed when the
    seedrandom library has been loaded, and [undefined] otherwise (no file
    of the repository loads it).  [Math.random] always exists. *)
Record realm : Type := {
  Math_seedrandom : option (option string -> generator);
  Math_random : generator
}.

Inductive exn : Type :=
| TypeError (msg : string).

Inductive completion (A : Type) : Type :=
| Normal (a : A)
| Throw (e : exn).

Arguments Normal {A} a.
Arguments Throw {A} e.

Definition and_then {A B} (c : completion A) (k : A -> completion B) : completion B :=
  match c with
  | Normal a => k a
  | Throw e => Throw e
  end.

(** [new F] and [new F(seed)]: a [TypeError] unless [F] is a constructor. *)
Definition construct (F : option (option string -> generator)) (seed : option string)
    : completion generator :=
  match F with
  | Some ctor => Normal (ctor seed)
  | None => Throw (TypeError "Math.seedrandom is not a constructor")
  end.

(** The result of [new] is an object, and every object is truthy. *)
Definition truthy_object (g : generator) : bool := true.

(** ** [InstancedCrops]: the seeds *)

Record seed : Type := { x : R; z : R; h : R; r : R }.

(** Line 12.  [new] without an argument list binds tighter than [?:]: the
    condition of the conditional is [new Math.seedrandom], evaluated
    first. *)
Definition make_rng (w : realm) : completion (option generator) :=
  and_then (construct (Math_seedrandom w) None) (fun probe =>
    if truthy_object probe
    then and_then (construct (Math_seedrandom w) (Some "krishi"%string))
                  (fun g => Normal (Some g))
    else Normal None).

(** How many numbers have been taken from the seeded generator and from
    [Math.random] so far. *)
Record cursor : Type := { from_rng : nat; from_random : nat }.

(** [rng ? rng() : Math.random()] *)
Definition next (w : realm) (rng : option generator) (k : cursor) : draw * cursor :=
  match rng with
  | Some g =>
      (g (from_rng k), {| from_rng := S (from_rng k); from_random := from_random k |})
  | None =>
      (Math_random w (from_random k),
       {| from_rng := from_rng k; from_random := S (from_random k) |})
  end.

(** One turn of the loop body, lines 15 to 23. *)
Definition push_seed (w : realm) (rng : option generator) (k : cursor)
    (values : list seed) : list seed * cursor :=
  let '(rx, k1) := next w rng k in
  let '(rz, k2) := next w rng k1 in
  let '(rh, k3) := next w rng k2 in
  let '(rr, k4) := next w rng k3 in
  (values ++ [{| x := rx * 8 - 4;
                 z := rz * 8 - 4;
                 h := 0.6 + rh * 1.8;
                 r := rr * PI * 2 |}],
   k4).

(** [for (let i = 0; i < count; i++) { ... }], with [n] turns left. *)
Fixpoint fill (w : realm) (rng : option generator) (n : nat) (k : cursor)
    (values : list seed) : list seed * cursor :=
  match n with
  | O => (values, k)
  | S n' =>
      let '(values', k') := push_seed w rng k values in
      fill w rng n' k' values'
  end.

(** The factory passed to the [useMemo] of lines 11 to 26. *)
Definition seeds (w : realm) (count : nat) : completion (list seed) :=
  and_then (make_rng w) (fun rng =>
    Normal (fst (fill w rng count {| from_rng := 0; from_random := 0 |} []))).

(** ** [InstancedCrops]: the mesh and the frame callback *)

Record vec3 : Type := { vx : R; vy : R; vz : R }.

(** What [dummy.updateMatrix()] packs into [dummy.matrix]. *)
Record matrix : Type := { position : vec3; rotation : vec3; scale : vec3 }.

Definition identity : matrix :=
  {| position := {| vx := 0; vy := 0; vz := 0 |};
     rotation := {| vx := 0; vy := 0; vz := 0 |};
     scale := {| vx := 1; vy := 1; vz := 1 |} |}.

(** [new THREE.InstancedMesh(null, null, count)] *)
Record instanced_mesh : Type := { mesh_count : nat; instanceMatrix : list matrix }.

Definition InstancedMesh (count : nat) : instanced_mesh :=
  {| mesh_count := count; instanceMatrix := repeat identity count |}.

(** Writing slot [i] of the instance buffer; a write past the end of the
    typed array is dropped. *)
Fixpoint write (i : nat) (m : matrix) (l : list matrix) : list matrix :=
  match l, i with
  | [], _ => []
  | _ :: l', O => m :: l'
  | a :: l', S i' => a :: write i' m l'
  end.

Definition setMatrixAt (i : nat) (m : matrix) (mesh : instanced_mesh) : instanced_mesh :=
  {| mesh_count := mesh_count mesh; instanceMatrix := write i m (instanceMatrix mesh) |}.

(** [THREE.MathUtils.clamp] and [THREE.MathUtils.lerp], as three.js defines
    them: [Math.max(min, Math.min(max, value))] and [(1 - t) * x + t * y],
    here on finite numbers and without rounding ([Binary64.clamp] and
    [Binary64.lerp] are the same functions on binary64 numbers, NaN
    included). *)
Definition clamp (v lo hi : R) : R := Rmax lo (Rmin hi v).
Definition lerp (a b t : R) : R := (1 - t) * a + t * b.

(** The body of the [forEach] of lines 31 to 39 for seed [s] at index [i]. *)
Definition height_of (growth : R) (s : seed) : R := lerp 0.3 (h s) growth.

Definition place (t growth : R) (s : seed) : matrix :=
  let sway := sin (t * 1.2 + r s) * 0.04 in
  let height := height_of growth s in
  {| position := {| vx := x s; vy := height / 2; vz := z s |};
     rotation := {| vx := 0; vy := r s + sway; vz := 0 |};
     scale := {| vx := 0.06; vy := height; vz := 0.06 |} |}.

(** [seeds.forEach((s, i) => ...)], starting at index [i]. *)
Fixpoint forEach (t growth : R) (l : list seed) (i : nat) (mesh : instanced_mesh)
    : instanced_mesh :=
  match l with
  | [] => mesh
  | s :: l' => forEach t growth l' (S i) (setMatrixAt i (place t growth s) mesh)
  end.

(** The instance's height is the y component of its scale (the cylinder
    geometry has height 1). *)
Definition instance_height (m : matrix) : R := vy (scale m).

(** ** [InstancedCrops]: the component *)

(** What one mounted [InstancedCrops] holds between renders: the cell of
    the [useMemo] on [count], and the mesh behind [meshRef]. *)
Record crops : Type := {
  memo_count : nat;
  memo_seeds : list seed;
  meshRef : instanced_mesh
}.

(** First render. *)
Definition InstancedCrops (w : realm) (count : nat) : completion crops :=
  and_then (seeds w count) (fun values =>
    Normal {| memo_count := count; memo_seeds := values; meshRef := InstancedMesh count |}).

(** A later render of the same instance: [useMemo] keeps the stored seeds
    while [count] is the one they were computed for. *)
Definition rerender (w : realm) (count : nat) (c : crops) : completion crops :=
  if Nat.eqb count (memo_count c)
  then Normal c
  else InstancedCrops w count.

(** The [useFrame] callback, at clock time [t]. *)
Definition InstancedCrops_useFrame (t predictionScore : R) (c : crops) : crops :=
  let growth := clamp predictionScore 0 1 in
  {| memo_count := memo_count c;
     memo_seeds := memo_seeds c;
     meshRef := forEach t growth (memo_seeds c) 0 (meshRef c) |}.

(** ** [FarmField] *)

Record group : Type := { rotation_y : R }.

(** The [useFrame] callback of [FarmField]; [ref] is [fieldRef.current]. *)
Definition FarmField_useFrame (t : R) (ref : option group) : option group :=
  match ref with
  | None => None
  | Some _ => Some {| rotation_y := sin (t * 0.3) * 0.06 |}
  end.



(** The ranges of a seed's four parameters.  The upper end of [h] is
    included: the program reaches it (see [Binary64.seed_h]). *)
Definition in_ranges (s : seed) : Prop :=
  (-4 <= x s < 4) /\ (-4 <= z s < 4) /\ (0.6 <= h s <= 2.4) /\ (0 <= r s < 2 * PI).

(** The [i]-th seed read off a generator: its calls number [4 i] to
    [4 i + 3], in the order x, z, h, r. *)
Definition seed_at (g : generator) (i : nat) : seed :=
  {| x := g (4 * i)%nat * 8 - 4;
     z := g (4 * i + 1)%nat * 8 - 4;
     h := 0.6 + g (4 * i + 2)%nat * 1.8;
     r := g (4 * i + 3)%nat * PI * 2 |}.


(** Concrete inputs. *)

Definition half : draw := {| value := 1 / 2; in_unit := ltac:(lra) |}.

Definition constant_half : generator := fun _ => half.

(** The seedrandom library is loaded. *)
Definition with_seedrandom : realm :=
  {| Math_seedrandom := Some (fun _ => constant_half); Math_random := constant_half |}.

(** The seedrandom library is not loaded. *)
Definition without_seedrandom (random : generator) : realm :=
  {| Math_seedrandom := None; Math_random := random |}.

(** What the first render gives for two crops when seedrandom is loaded
    and every call returns one half. *)
Definition two_crops : crops :=
  {| memo_count := 2;
     memo_seeds := [seed_at constant_half 0; seed_at constant_half 1];
     meshRef := InstancedMesh 2 |}.

(** What happens to a mounted [InstancedCrops]: a frame, or a re-render
    in some environment with some [count] prop. *)
Inductive tick : Type :=
| Frame (t predictionScore : R)
| Render (w : realm) (count : nat).

Fixpoint play (ticks : list tick) (c : crops) : completion crops :=
  match ticks with
  | [] => Normal c
  | Frame t predictionScore :: rest =>
      play rest (InstancedCrops_useFrame t predictionScore c)
  | Render w count :: rest => and_then (rerender w count c) (play rest)
  end.

(** Every re-render of [ticks] passes the same [count]. *)
Fixpoint same_count (count : nat) (ticks : list tick) : Prop :=
  match ticks with
  | [] => True
  | Frame _ _ :: rest => same_count count rest
  | Render _ n :: rest => n = count /\ same_count count rest
  end.

End Scene.

(* ================================================================== *)
(** * The arithmetic of the crop field in binary64                     *)
(* ================================================================== *)

(** The formulas of [InstancedCrops] on the numbers the program computes
    with.  Decimal literals denote the nearest binary64 number, as in
    JavaScript. *)

Module Binary64.

Import Floats.
Local Open Scope float_scope.
#[local] Set Warnings "-inexact-float".

(** [Math.PI] *)
Definition Math_PI : float := 0x1.921fb54442d18p+1.

(** Lines 19 to 22, for the draws [rx], [rh] and [rr]. *)
Definition seed_x (rx : float) : float := rx * 8 - 4.
Definition seed_h (rh : float) : float := 0.6 + rh * 1.8.
Definition seed_r (rr : float) : float := rr * Math_PI * 2.

(** [Math.min] and [Math.max] of two numbers: NaN if either is NaN, and
    -0 below +0. *)
Definition Math_min (a b : float) : float :=
  if is_nan a || is_nan b then nan
  else if a <? b then a
  else if b <? a then b
  else if get_sign a then a else b.

Definition Math_max (a b : float) : float :=
  if is_nan a || is_nan b then nan
  else if a <? b then b
  else if b <? a then a
  else if get_sign a then b else a.

(** [THREE.MathUtils.clamp] and [THREE.MathUtils.lerp]. *)
Definition clamp (v lo hi : float) : float := Math_max lo (Math_min hi v).
Definition lerp (a b t : float) : float := (1 - t) * a + t * b.

(** Lines 30 and 33: the height of a stalk of seed height [h]. *)
Definition height (predictionScore h : float) : float :=
  lerp 0.3 h (clamp predictionScore 0 1).

(** The largest number below 1, [1 - 2^-53]: the largest value a call of
    a generator can return. *)
Definition largest_draw : float := 0x1.fffffffffffffp-1.

End Binary64.

(* ================================================================== *)
(** * The dashboard ([Dashboard.jsx])                                  *)
(* ================================================================== *)

Module Dash.

Local Open Scope string_scope.

(** ** Values *)

(** The values a field of the [predictions] prop can hold. *)
Inductive value : Type :=
| Undefined
| Null
| Boolean (b : bool)
| Number (n : R)
| Str (s : string)
| Array (items : list R).

(** JavaScript truthiness: every array is truthy, the empty one too. *)
Definition truthy (v : value) : bool :=
  match v with
  | Undefined | Null => false
  | Boolean b => b
  | Number n => if Req_dec_T n 0 then false else true
  | Str s => negb (String.eqb s "")
  | Array _ => true
  end.

(** [a || b] *)
Definition or_else (a b : value) : value := if truthy a then a else b.

(** An object with the three fields the card reads; a field the object
    does not have reads as [Undefined]. *)
Record predictions : Type := { trend : value; confidence : value; risks : value }.

(** [predictions?.field], the prop being [null] ([None]) or an object. *)
Definition optional (field : predictions -> value) (p : option predictions) : value :=
  match p with
  | None => Undefined
  | Some o => field o
  end.

Definition array_length (v : value) : option nat :=
  match v with
  | Array items => Some (List.length items)
  | _ => None
  end.

(** ** [YieldPredictionCard] *)

(** A chart.js data object.  The colours and the curve tension of the
    datasets, constants that nothing reads back, are left out. *)
Record dataset : Type := { label : string; data : value }.
Record chart_data : Type := { labels : list string; datasets : list dataset }.

Definition string_of_nat (n : nat) : string :=
  NilEmpty.string_of_uint (Nat.to_uint n).

(** [Array.from({ length: 7 }).map((_, i) => `Day ${i + 1}`)] *)
Definition day_labels : list string :=
  map (fun i => "Day " ++ string_of_nat (i + 1)) (seq 0 7).

Definition fallback_trend : list R :=
  [3.2; 3.3; 3.35; 3.4; 3.42; 3.45; 3.5]%R.
Definition fallback_confidence : list R :=
  [0.82; 0.76; 0.71; 0.79]%R.
Definition fallback_risks : list R :=
  [60; 40; 70; 35; 45; 50]%R.

Definition lineData (p : option predictions) : chart_data :=
  {| labels := day_labels;
     datasets :=
       [{| label := "Predicted Yield (t/ha)";
           data := or_else (optional trend p) (Array fallback_trend) |}] |}.

Definition barData (p : option predictions) : chart_data :=
  {| labels := ["Rice"; "Wheat"; "Maize"; "Sugarcane"];
     datasets :=
       [{| label := "Confidence";
           data := or_else (optional confidence p) (Array fallback_confidence) |}] |}.

Definition radarData (p : option predictions) : chart_data :=
  {| labels := ["Rainfall"; "Temperature"; "Soil Moisture"; "N"; "P"; "K"];
     datasets :=
       [{| label := "Risk Factors";
           data := or_else (optional risks p) (Array fallback_risks) |}] |}.

(** What the card hands to its [Line], [Bar] and [Radar] charts. *)
Record card : Type := { line : chart_data; bar : chart_data; radar : chart_data }.

Definition YieldPredictionCard (p : option predictions) : card :=
  {| line := lineData p; bar := barData p; radar := radarData p |}.

(** The array each chart draws: the [data] of its only dataset. *)
Definition drawn (c : chart_data) : value :=
  match datasets c with
  | d :: _ => data d
  | [] => Undefined
  end.

(** ** [LanguageSelector] *)

(** A change event, as far as the handler looks at it: [e.target.value]. *)
Record change_event : Type := { target_value : string }.

(** The rendered [<select>]: its controlled value, the values of its
    [<option>]s in document order, and its [onChange] handler. *)
Record select (A : Type) : Type := {
  select_value : string;
  options : list string;
  onChange : change_event -> A
}.

Definition LanguageSelector {A} (currentLang : string) (onLanguageChange : string -> A)
    : select A :=
  {| select_value := currentLang;
     options := ["en"; "hi"; "or"];
     onChange := fun e => onLanguageChange (target_value e) |}.

Definition supported : list string := ["en"; "hi"; "or"].

(** ** [Dashboard] *)

(** The record assigned by the timer callback, lines 135 to 139. *)
Definition placeholder : predictions :=
  {| trend := Array [3.2; 3.31; 3.35; 3.41; 3.46; 3.5; 3.58]%R;
     confidence := Array [0.84; 0.76; 0.72; 0.8]%R;
     risks := Array [55; 42; 68; 35; 45; 51]%R |}.

(** The functions handed to [setTimeout]; the component has one. *)
Inductive task : Type :=
| AssignPlaceholder.

Record timer : Type := { timer_id : nat; due : nat; callback : task }.

(** One mounted [Dashboard] together with the part of the browser it
    talks to.  [assignments] records every call of [setPredictions], most
    recent last; it is not read by the component. *)
Record dashboard : Type := {
  now : nat;                                (* clock, in ms *)
  timers : list timer;                      (* pending timeouts *)
  fresh_id : nat;                           (* next timer id *)
  mounted : bool;
  predictions_state : option predictions;   (* useState(null) *)
  selectedLanguage : string;                (* useState('en') *)
  cleanup : option nat;                     (* the [timer] the effect's cleanup closes over *)
  assignments : list predictions
}.

(** [setTimeout(cb, delay)]: registers the callback and returns its id. *)
Definition setTimeout (cb : task) (delay : nat) (d : dashboard) : nat * dashboard :=
  (fresh_id d,
   {| now := now d;
      timers := timers d ++ [{| timer_id := fresh_id d; due := now d + delay; callback := cb |}];
      fresh_id := S (fresh_id d);
      mounted := mounted d;
      predictions_state := predictions_state d;
      selectedLanguage := selectedLanguage d;
      cleanup := cleanup d;
      assignments := assignments d |}).

(** [clearTimeout(id)] *)
Definition clearTimeout (id : nat) (d : dashboard) : dashboard :=
  {| now := now d;
     timers := filter (fun tm => negb (Nat.eqb (timer_id tm) id)) (timers d);
     fresh_id := fresh_id d;
     mounted := mounted d;
     predictions_state := predictions_state d;
     selectedLanguage := selectedLanguage d;
     cleanup := cleanup d;
     assignments := assignments d |}.

(** [setPredictions(p)].  React drops a state update of a component that
    is no longer mounted. *)
Definition setPredictions (p : predictions) (d : dashboard) : dashboard :=
  {| now := now d;
     timers := timers d;
     fresh_id := fresh_id d;
     mounted := mounted d;
     predictions_state := if mounted d then Some p else predictions_state d;
     selectedLanguage := selectedLanguage d;
     cleanup := cleanup d;
     assignments := assignments d ++ [p] |}.

(** [setSelectedLanguage(code)] *)
Definition setSelectedLanguage (code : string) (d : dashboard) : dashboard :=
  {| now := now d;
     timers := timers d;
     fresh_id := fresh_id d;
     mounted := mounted d;
     predictions_state := predictions_state d;
     selectedLanguage := if mounted d then code else selectedLanguage d;
     cleanup := cleanup d;
     assignments := assignments d |}.

Definition run_task (cb : task) (d : dashboard) : dashboard :=
  match cb with
  | AssignPlaceholder => setPredictions placeholder d
  end.

(** Mounting at clock time [t0]: the two [useState] cells get their
    initial values and the effect (dependency list [[]]: once per mount)
    schedules the assignment 400 ms ahead and keeps the timer id for its
    cleanup. *)
Definition mount (t0 : nat) : dashboard :=
  let blank :=
    {| now := t0; timers := []; fresh_id := 0; mounted := true;
       predictions_state := None; selectedLanguage := "en";
       cleanup := None; assignments := [] |} in
  let '(id, d) := setTimeout AssignPlaceholder 400 blank in
  {| now := now d; timers := timers d; fresh_id := fresh_id d; mounted := mounted d;
     predictions_state := predictions_state d; selectedLanguage := selectedLanguage d;
     cleanup := Some id; assignments := assignments d |}.

(** Unmounting runs the cleanup, [clearTimeout(timer)]. *)
Definition unmount (d : dashboard) : dashboard :=
  let d' := match cleanup d with
            | Some id => clearTimeout id d
            | None => d
            end in
  {| now := now d'; timers := timers d'; fresh_id := fresh_id d'; mounted := false;
     predictions_state := predictions_state d'; selectedLanguage := selectedLanguage d';
     cleanup := None; assignments := assignments d' |}.

(** [ms] milliseconds pass: the timeouts that have become due fire, in
    the order in which they were registered. *)
Definition elapse (ms : nat) (d : dashboard) : dashboard :=
  let t := now d + ms in
  let ready := filter (fun tm => Nat.leb (due tm) t) (timers d) in
  let waiting := filter (fun tm => negb (Nat.leb (due tm) t)) (timers d) in
  fold_left (fun acc tm => run_task (callback tm) acc) ready
    {| now := t; timers := waiting; fresh_id := fresh_id d; mounted := mounted d;
       predictions_state := predictions_state d; selectedLanguage := selectedLanguage d;
       cleanup := cleanup d; assignments := assignments d |}.

(** The selector as [Dashboard] renders it, line 148. *)
Definition rendered_selector (d : dashboard) : select (dashboard -> dashboard) :=
  LanguageSelector (selectedLanguage d) setSelectedLanguage.

(** The user picks the [i]-th [<option>] of the rendered selector: the
    browser dispatches a change event whose [target.value] is that
    option's value.  Nothing happens without such an option or once the
    component is gone. *)
Definition pick (i : nat) (d : dashboard) : dashboard :=
  if mounted d then
    match nth_error (options (rendered_selector d)) i with
    | Some code => onChange (rendered_selector d) {| target_value := code |} d
    | None => d
    end
  else d.

Inductive happening : Type :=
| Elapse (ms : nat)
| Pick (i : nat)
| Unmount.

Definition step (d : dashboard) (e : happening) : dashboard :=
  match e with
  | Elapse ms => elapse ms d
  | Pick i => pick i d
  | Unmount => unmount d
  end.

Definition run (es : list happening) (d : dashboard) : dashboard :=
  fold_left step es d.

(** Milliseconds that pass before the first [Unmount] of [es]. *)
Fixpoint mounted_time (es : list happening) : nat :=
  match es with
  | [] => 0
  | Elapse ms :: es' => ms + mounted_time es'
  | Pick _ :: es' => mounted_time es'
  | Unmount :: _ => 0
  end.

(** The assignment is still scheduled, [k] ms after the mount: the one
    pending timeout is the effect's, due 400 ms after the mount, and
    [setPredictions] has not been called. *)
Definition pending (k : nat) (d : dashboard) : Prop :=
  k < 400 /\
  mounted d = true /\
  (exists t, timers d = [{| timer_id := 0; due := t; callback := AssignPlaceholder |}] /\
             t + k = now d + 400) /\
  cleanup d = Some 0 /\
  assignments d = [] /\
  predictions_state d = None.

(** A field that holds an array or nothing ([undefined], [null]). *)
Definition array_or_absent (v : value) : bool :=
  match v with
  | Undefined | Null | Array _ => true
  | _ => false
  end.

(** The array a field provides, or else the fallback. *)
Definition provided_or (fallback : list R) (v : value) : list R :=
  match v with
  | Array items => items
  | _ => fallback
  end.

(** The card as [Dashboard] renders it, line 151. *)
Definition Dashboard_card (d : dashboard) : card :=
  YieldPredictionCard (predictions_state d).

(** The timeout the effect registers when mounting at [t0]. *)
Definition effect_timer (t0 : nat) : timer :=
  {| timer_id := 0; due := t0 + 400; callback := AssignPlaceholder |}.

Definition has_unmount (es : list happening) : bool :=
  existsb (fun e => match e with Unmount => true | _ => false end) es.

Definition has_pick (es : list happening) : bool :=
  existsb (fun e => match e with Pick _ => true | _ => false end) es.

End Dash.

(* ================================================================== *)
(** * Properties of the setup scripts                                  *)
(* ================================================================== *)

Unset Implicit Arguments.

Section SetupProperties.

Import Setup.
Local Open Scope Z_scope.

Lemma succeeded_iff (o : outcome) : succeeded o = true <-> o = Exited 0.
Proof.
  destruct o as [|[|p|p]]; simpl; split; intro H;
    try reflexivity; try discriminate H.
Qed.

(** Splitting an outcome into: could not start, exit code 0, any other
    exit code. *)
Ltac outcome_of h c :=
  destruct (h c) as [|[|?|?]].

(** The batch script stops with exit code 1 right after the first guarded
    command that does not succeed, and runs to the end with exit code 0
    when there is none. *)
Lemma setup_bat_run (h : host) :
  let '(code, l) := Bat.execute h in
  match first_failure h with
  | Some c => code = 1 /\ commands_run l = upto c script_order
  | None => code = 0 /\ commands_run l = script_order
  end.
Proof.
  cbv.
  outcome_of h PythonVersion; try (split; reflexivity).
  outcome_of h NodeVersion; try (split; reflexivity).
  outcome_of h NpmInstall; try (split; reflexivity).
  outcome_of h PipBackend; try (split; reflexivity).
  outcome_of h PipMl; split; reflexivity.
Qed.

(** The PowerShell script, on a host where the three install programs can
    be started: it stops with exit code 1 right after the first guarded
    command its guard reacts to, and exits with code 0 when there is
    none. *)
Lemma setup_ps1_run (h : host) :
  (forall c, In c installers -> h c <> NotFound) ->
  let '(code, l) := Ps1.execute h in
  match find (ps1_detects h) guarded with
  | Some c => code = 1 /\ commands_run l = upto c script_order
  | None => code = 0 /\ commands_run l = script_order
  end.
Proof.
  intros Hstart.
  assert (Hnpm := Hstart NpmInstall (or_introl eq_refl)).
  assert (Hpb := Hstart PipBackend (or_intror (or_introl eq_refl))).
  assert (Hpm := Hstart PipMl (or_intror (or_intror (or_introl eq_refl)))).
  clear Hstart. revert Hnpm Hpb Hpm.
  cbv.
  destruct (h PythonVersion) as [|?]; [intros; split; reflexivity|].
  destruct (h NodeVersion) as [|?]; [intros; split; reflexivity|].
  outcome_of h NpmInstall; try (intros; split; reflexivity);
    try (intros Hn; exfalso; apply Hn; reflexivity).
  outcome_of h PipBackend; try (intros; split; reflexivity);
    try (intros _ Hn; exfalso; apply Hn; reflexivity).
  outcome_of h PipMl; try (intros; split; reflexivity);
    intros _ _ Hn; exfalso; apply Hn; reflexivity.
Qed.

Example setup_bat_healthy :
  fst (Bat.execute healthy) = 0 /\
  commands_run (snd (Bat.execute healthy)) = script_order.
Proof. vm_compute. split; reflexivity. Qed.

Example setup_ps1_healthy :
  fst (Ps1.execute healthy) = 0 /\
  commands_run (snd (Ps1.execute healthy)) = script_order.
Proof. vm_compute. split; reflexivity. Qed.

Example setup_ps1_no_node :
  fst (Ps1.execute no_node) = 1 /\
  commands_run (snd (Ps1.execute no_node)) = [PythonVersion; NodeVersion].
Proof. vm_compute. split; reflexivity. Qed.

(** A missing [npm] leaves [$LASTEXITCODE] at the 0 of [node --version]:
    the PowerShell script goes on, the batch script stops. *)
Example setup_no_npm :
  fst (Ps1.execute no_npm) = 0 /\
  commands_run (snd (Ps1.execute no_npm)) = script_order /\
  fst (Bat.execute no_npm) = 1 /\
  commands_run (snd (Bat.execute no_npm)) = upto NpmInstall script_order.
Proof. vm_compute. repeat split; reflexivity. Qed.

(** C1 (fails on [setup.ps1]).  The claim: in either script a prerequisite
    check or install command that reports failure ends the run with exit
    code 1 right after it.  On a host where [python --version] starts and
    returns the nonzero code 9009, [setup.bat] does exactly that, whereas
    [setup.ps1] takes the check as passed, runs every later command and
    exits with code 0. *)
Theorem setup_ps1_proceeds_after_failed_python_check :
  succeeded (python_reports_failure PythonVersion) = false /\
  first_failure python_reports_failure = Some PythonVersion /\
  fst (Bat.execute python_reports_failure) = 1 /\
  commands_run (snd (Bat.execute python_reports_failure)) = [PythonVersion] /\
  fst (Ps1.execute python_reports_failure) = 0 /\
  commands_run (snd (Ps1.execute python_reports_failure)) = script_order /\
  In (Print "Python found: $pythonVersion") (snd (Ps1.execute python_reports_failure)).
Proof.
  vm_compute.
  repeat (split; [reflexivity|]).
  do 4 right. left. reflexivity.
Qed.

End SetupProperties.

(* ================================================================== *)
(** * The crop field's formulas evaluated in binary64                  *)
(* ================================================================== *)

Section Binary64Evaluation.

Import Floats.
Import Binary64.
Local Open Scope float_scope.
#[local] Set Warnings "-inexact-float".


(** C3 (as stated, fails).  The claim covers every value of
    [predictionScore].  At NaN the clamp of line 30 returns NaN, not a
    number of [[0, 1]], and the height of line 33 is NaN, which is not
    between 0.3 and the seed's height (here 1.5, the height for the draw
    0.5). *)
Lemma height_is_NaN_at_NaN_score :
  is_nan (clamp nan 0 1) = true /\
  (0 <=? clamp nan 0 1) = false /\
  (clamp nan 0 1 <=? 1) = false /\
  (seed_h 0.5 =? 1.5) = true /\
  is_nan (height nan (seed_h 0.5)) = true /\
  (0.3 <=? height nan (seed_h 0.5)) = false /\
  (height nan (seed_h 0.5) <=? seed_h 0.5) = false.
Proof. vm_compute. repeat split. Qed.

(** The seed's parameters at the two extreme draws, 0 and [1 - 2^-53]:
    [x] goes from -4 to [4 - 2^-50], [h] from 0.6 to 2.4 and [r] from 0
    to a number below [2 * Math.PI]. *)
Example seed_at_extreme_draws :
  (seed_x 0 =? -4) = true /\
  (seed_x largest_draw =? 0x1.ffffffffffffep+1) = true /\
  (seed_x largest_draw <? 4) = true /\
  (seed_h 0 =? 0.6) = true /\
  (seed_h largest_draw =? 2.4) = true /\
  (seed_r 0 =? 0) = true /\
  (seed_r largest_draw <? 2 * Math_PI) = true.
Proof. vm_compute. repeat split. Qed.

(** The height at scores outside and inside [[0, 1]], for the seed
    heights 1.5 and 2.4: 0.3 at a score of 0 or less, the seed's height
    at a score of 1 or more (infinite ones included), and in between
    otherwise. *)
Example height_at_some_scores :
  (height (-3) (seed_h 0.5) =? 0.3) = true /\
  (height 0 (seed_h 0.5) =? 0.3) = true /\
  (height 1 (seed_h 0.5) =? seed_h 0.5) = true /\
  (height 7 (seed_h largest_draw) =? 2.4) = true /\
  (height infinity (seed_h largest_draw) =? 2.4) = true /\
  (height neg_infinity (seed_h largest_draw) =? 0.3) = true /\
  (0.3 <=? height 0.8 (seed_h 0.5)) = true /\
  (height 0.8 (seed_h 0.5) <=? seed_h 0.5) = true.
Proof. vm_compute. repeat split. Qed.

(** Rounding makes the interpolation of line 33 non-monotone in the
    score: for these two neighbouring numbers the larger score gives the
    smaller height (seed height 1.5). *)
Example lerp_not_monotone :
  (0x1.a897ead4b3e9ap-2 <? 0x1.a897ead4b3e9bp-2) = true /\
  (lerp 0.3 1.5 0x1.a897ead4b3e9bp-2 <? lerp 0.3 1.5 0x1.a897ead4b3e9ap-2) = true.
Proof. vm_compute. repeat split. Qed.

End Binary64Evaluation.

(* ================================================================== *)
(** * Properties of the 3D crop field                                  *)
(* ================================================================== *)

Section SceneProperties.

Import Scene.
Local Open Scope R_scope.

(** ** The generator *)

Lemma make_rng_without_seedrandom (w : realm) :
  Math_seedrandom w = None ->
  make_rng w = Throw (TypeError "Math.seedrandom is not a constructor").
Proof.
  intros Hnone. unfold make_rng. rewrite Hnone. reflexivity.
Qed.

Lemma make_rng_with_seedrandom (w : realm) ctor :
  Math_seedrandom w = Some ctor ->
  make_rng w = Normal (Some (ctor (Some "krishi"%string))).
Proof.
  intros Hsome. unfold make_rng. rewrite Hsome. reflexivity.
Qed.

(** Whenever line 12 completes, [rng] is a generator: the [null] of the
    conditional, and with it every [Math.random()] of the loop, is never
    reached. *)
Lemma make_rng_never_null (w : realm) (rng : option generator) :
  make_rng w = Normal rng -> rng <> None.
Proof.
  unfold make_rng. destruct (Math_seedrandom w) as [ctor|]; simpl.
  - intros H. injection H as <-. discriminate.
  - discriminate.
Qed.

(** ** The loop *)

Lemma push_seed_snoc (w : realm) rng k values :
  exists s, fst (push_seed w rng k values) = values ++ [s] /\ in_ranges s.
Proof.
  unfold push_seed.
  destruct (next w rng k) as [rx k1].
  destruct (next w rng k1) as [rz k2].
  destruct (next w rng k2) as [rh k3].
  destruct (next w rng k3) as [rr k4].
  simpl. eexists. split; [reflexivity|].
  pose proof (in_unit rx). pose proof (in_unit rz).
  pose proof (in_unit rh). pose proof (in_unit rr).
  pose proof PI_RGT_0.
  unfold in_ranges; simpl.
  repeat split; try lra; nra.
Qed.

Lemma fill_length (w : realm) rng n : forall k values,
  List.length (fst (fill w rng n k values)) = (List.length values + n)%nat.
Proof.
  induction n as [|n IH]; intros k values; simpl.
  - lia.
  - destruct (push_seed_snoc w rng k values) as [s [Hs _]].
    destruct (push_seed w rng k values) as [values' k'].
    simpl in Hs. subst values'. rewrite IH, length_app. simpl. lia.
Qed.

Lemma fill_in_ranges (w : realm) rng n : forall k values,
  Forall in_ranges values ->
  Forall in_ranges (fst (fill w rng n k values)).
Proof.
  induction n as [|n IH]; intros k values Hall; simpl.
  - exact Hall.
  - destruct (push_seed_snoc w rng k values) as [s [Hs Hr]].
    destruct (push_seed w rng k values) as [values' k'].
    simpl in Hs. subst values'. apply IH.
    apply Forall_app. split; [exact Hall | constructor; [exact Hr | constructor]].
Qed.

Lemma seeds_length (w : realm) count values :
  seeds w count = Normal values -> List.length values = count.
Proof.
  unfold seeds. destruct (make_rng w) as [rng|e]; simpl; [|discriminate].
  intros H. injection H as <-. rewrite fill_length. reflexivity.
Qed.

Lemma seeds_in_ranges (w : realm) count values :
  seeds w count = Normal values -> Forall in_ranges values.
Proof.
  unfold seeds. destruct (make_rng w) as [rng|e]; simpl; [|discriminate].
  intros H. injection H as <-. apply fill_in_ranges. constructor.
Qed.

Lemma seeds_with_seedrandom (w : realm) ctor count :
  Math_seedrandom w = Some ctor ->
  exists values, seeds w count = Normal values.
Proof.
  intros Hsome. unfold seeds.
  rewrite (make_rng_with_seedrandom w ctor Hsome). simpl. eexists. reflexivity.
Qed.


(** ** The instance buffer *)

Lemma write_length i m : forall l, List.length (write i m l) = List.length l.
Proof.
  induction i as [|i IH]; intros [|a l]; simpl; try reflexivity.
  rewrite IH. reflexivity.
Qed.

Lemma nth_error_write_same m : forall i l,
  (i < List.length l)%nat -> nth_error (write i m l) i = Some m.
Proof.
  induction i as [|i IH]; intros [|a l] Hlt; simpl in *; try lia.
  - reflexivity.
  - apply IH. lia.
Qed.

Lemma nth_error_write_other m : forall i j l,
  i <> j -> nth_error (write i m l) j = nth_error l j.
Proof.
  induction i as [|i IH]; intros [|j] [|a l] Hne; simpl; try reflexivity.
  - congruence.
  - apply IH. congruence.
Qed.

Lemma forEach_count t g : forall l i mesh,
  mesh_count (forEach t g l i mesh) = mesh_count mesh.
Proof.
  induction l as [|s l IH]; intros i mesh; simpl.
  - reflexivity.
  - rewrite IH. reflexivity.
Qed.

Lemma forEach_length t g : forall l i mesh,
  List.length (instanceMatrix (forEach t g l i mesh)) = List.length (instanceMatrix mesh).
Proof.
  induction l as [|s l IH]; intros i mesh; simpl.
  - reflexivity.
  - rewrite IH. simpl. apply write_length.
Qed.

(** A slot below the running index is left alone. *)
Lemma forEach_below t g : forall l i mesh j,
  (j < i)%nat ->
  nth_error (instanceMatrix (forEach t g l i mesh)) j
  = nth_error (instanceMatrix mesh) j.
Proof.
  induction l as [|s l IH]; intros i mesh j Hlt; simpl.
  - reflexivity.
  - rewrite IH by lia. simpl. apply nth_error_write_other. lia.
Qed.

(** Slot [i + j] receives the matrix of the [j]-th seed. *)
Lemma forEach_at t g : forall l i mesh j s,
  nth_error l j = Some s ->
  (i + j < List.length (instanceMatrix mesh))%nat ->
  nth_error (instanceMatrix (forEach t g l i mesh)) (i + j)
  = Some (place t g s).
Proof.
  induction l as [|s0 l IH]; intros i mesh [|j] s Hnth Hlt; simpl in *;
    try discriminate.
  - injection Hnth as <-. rewrite Nat.add_0_r in *.
    rewrite forEach_below by lia. simpl.
    apply nth_error_write_same. exact Hlt.
  - replace (i + S j)%nat with (S i + j)%nat by lia.
    apply IH; [exact Hnth|]. simpl. rewrite write_length. lia.
Qed.

(** ** Clamp and interpolation *)

Lemma clamp_unit (v : R) : 0 <= clamp v 0 1 <= 1.
Proof.
  unfold clamp, Rmax, Rmin.
  destruct (Rle_dec 1 v); destruct (Rle_dec 0 1); try lra;
    destruct (Rle_dec 0 v); lra.
Qed.

Lemma clamp_inside (v : R) : 0 <= v <= 1 -> clamp v 0 1 = v.
Proof.
  intros Hv. unfold clamp, Rmax, Rmin.
  destruct (Rle_dec 1 v); destruct (Rle_dec 0 1); try lra;
    destruct (Rle_dec 0 v); lra.
Qed.

Lemma lerp_between (a b g : R) :
  a <= b -> 0 <= g <= 1 -> a <= lerp a b g <= b.
Proof.
  intros Hab Hg. unfold lerp. split; nra.
Qed.

(** ** The component *)

(** While [count] stays what it was, a re-render hands back the seeds of
    the first render without calling the factory again. *)
Lemma rerender_keeps_seeds (w w' : realm) (count : nat) (c : crops) :
  InstancedCrops w count = Normal c ->
  rerender w' count c = Normal c.
Proof.
  unfold InstancedCrops, rerender.
  destruct (seeds w count) as [values|e]; simpl; [|discriminate].
  intros H. injection H as <-. simpl. rewrite Nat.eqb_refl. reflexivity.
Qed.

(** With the seedrandom library loaded the seeds are [count] entries, all
    taken from the generator seeded with ['krishi']. *)
Lemma seeds_seeded (w : realm) ctor (count : nat) :
  Math_seedrandom w = Some ctor ->
  exists values,
    seeds w count = Normal values /\ List.length values = count /\
    snd (fill w (Some (ctor (Some "krishi"%string))) count
           {| from_rng := 0; from_random := 0 |} [])
    = {| from_rng := 4 * count; from_random := 0 |}.
Proof.
  intros Hsome.
  destruct (seeds_with_seedrandom w ctor count Hsome) as [values Hv].
  exists values. split; [exact Hv|]. split; [exact (seeds_length w count values Hv)|].
  assert (Hgen : forall n a values0,
             snd (fill w (Some (ctor (Some "krishi"%string))) n
                    {| from_rng := a; from_random := 0 |} values0)
             = {| from_rng := a + 4 * n; from_random := 0 |}).
  { induction n as [|n IH]; intros a values0; simpl.
    - f_equal. lia.
    - rewrite IH. f_equal. lia. }
  apply Hgen.
Qed.

(** C2 (fails without seedrandom).  The claim: the seeds are also
    computed, from [Math.random], when [Math.seedrandom] is not available.
    With [Math.seedrandom] undefined, whatever [Math.random] returns and
    whatever the count, the factory of the [useMemo] throws a [TypeError]
    at line 12 and so does the first render of [InstancedCrops]: no
    array is produced and [Math.random] is not consulted. *)
Theorem seeds_throw_without_seedrandom :
  forall (random : generator) (count : nat),
    seeds (without_seedrandom random) count
    = Throw (TypeError "Math.seedrandom is not a constructor") /\
    InstancedCrops (without_seedrandom random) count
    = Throw (TypeError "Math.seedrandom is not a constructor").
Proof.
  intros random count. split; reflexivity.
Qed.

(** C3 (as amended).  For every count, every frame time and every
    prediction score that is a finite number, inside [[0, 1]] or not:
    what [InstancedCrops] renders is an instanced mesh of exactly [count]
    instances, one per seed, and after the frame callback the height of
    instance [i] (the y scale of its matrix) is [(1 - g) * 0.3 + g * h]
    for the height [h] of seed [i] and [g = max (0, min (1, score))], the
    score clamped to [[0, 1]]: 0 for a score of 0 or less, the score
    itself inside [[0, 1]], 1 for a score of 1 or more.  So the height
    lies between 0.3 and [h].  The component does render whenever
    [Math.seedrandom] is available. *)
Theorem crops_count_and_height :
  forall (w : realm) (count : nat) (predictionScore t : R),
    (forall ctor, Math_seedrandom w = Some ctor ->
       exists c : crops, InstancedCrops w count = Normal c) /\
    (forall c : crops,
       InstancedCrops w count = Normal c ->
       let g := Rmax 0 (Rmin 1 predictionScore) in
       let mesh := meshRef (InstancedCrops_useFrame t predictionScore c) in
       mesh_count mesh = count /\
       List.length (instanceMatrix mesh) = count /\
       List.length (memo_seeds c) = count /\
       0 <= g <= 1 /\
       (predictionScore <= 0 -> g = 0) /\
       (0 <= predictionScore <= 1 -> g = predictionScore) /\
       (1 <= predictionScore -> g = 1) /\
       forall i : nat, (i < count)%nat ->
         exists (s : seed) (m : matrix),
           nth_error (memo_seeds c) i = Some s /\
           nth_error (instanceMatrix mesh) i = Some m /\
           vy (scale m) = (1 - g) * 0.3 + g * h s /\
           0.3 <= vy (scale m) <= h s).
Proof.
  intros w count predictionScore t. split.
  { intros ctor Hsome.
    destruct (seeds_with_seedrandom w ctor count Hsome) as [values Hv].
    unfold InstancedCrops. rewrite Hv. simpl. eexists. reflexivity. }
  intros c Hc.
  unfold InstancedCrops in Hc.
  destruct (seeds w count) as [values|e] eqn:Hv; simpl in Hc; [|discriminate].
  injection Hc as <-.
  pose proof (seeds_length w count values Hv) as Hlen.
  pose proof (seeds_in_ranges w count values Hv) as Hranges.
  pose proof (clamp_unit predictionScore) as Hunit.
  cbv zeta. unfold InstancedCrops_useFrame. cbn [meshRef memo_seeds].
  change (clamp predictionScore 0 1) with (Rmax 0 (Rmin 1 predictionScore)) in *.
  split. { rewrite forEach_count. reflexivity. }
  split. { rewrite forEach_length. simpl. apply repeat_length. }
  split. { exact Hlen. }
  split. { exact Hunit. }
  split.
  { intros Hp. unfold Rmax, Rmin in *.
    destruct (Rle_dec 1 predictionScore); [lra|].
    destruct (Rle_dec 0 predictionScore); lra. }
  split.
  { intros Hp. unfold Rmax, Rmin in *.
    destruct (Rle_dec 1 predictionScore);
      [destruct (Rle_dec 0 1) | destruct (Rle_dec 0 predictionScore)]; lra. }
  split.
  { intros Hp. unfold Rmax, Rmin in *.
    destruct (Rle_dec 1 predictionScore); [|lra].
    destruct (Rle_dec 0 1); lra. }
  intros i Hi.
  destruct (nth_error values i) as [s|] eqn:Hs.
  2:{ apply nth_error_None in Hs. lia. }
  exists s, (place t (Rmax 0 (Rmin 1 predictionScore)) s).
  split; [reflexivity|].
  split.
  { change i with (0 + i)%nat at 1. apply forEach_at; [exact Hs|].
    simpl. rewrite repeat_length. lia. }
  split; [reflexivity|].
  assert (Hin : in_ranges s).
  { rewrite Forall_forall in Hranges. apply Hranges.
    eapply nth_error_In. exact Hs. }
  destruct Hin as [_ [_ [Hh _]]].
  change (vy (scale (place t (Rmax 0 (Rmin 1 predictionScore)) s)))
    with (lerp 0.3 (h s) (Rmax 0 (Rmin 1 predictionScore))).
  apply lerp_between; [lra | exact Hunit].
Qed.

Lemma crops_count_and_height_witness :
  exists c : crops,
    InstancedCrops with_seedrandom 3 = Normal c /\
    let g := Rmax 0 (Rmin 1 7) in
    let mesh := meshRef (InstancedCrops_useFrame 2 7 c) in
    mesh_count mesh = 3%nat /\
    List.length (instanceMatrix mesh) = 3%nat /\
    List.length (memo_seeds c) = 3%nat /\
    g = 1 /\
    forall i : nat, (i < 3)%nat ->
      exists (s : seed) (m : matrix),
        nth_error (memo_seeds c) i = Some s /\
        nth_error (instanceMatrix mesh) i = Some m /\
        vy (scale m) = (1 - g) * 0.3 + g * h s /\
        0.3 <= vy (scale m) <= h s.
Proof.
  destruct (crops_count_and_height with_seedrandom 3%nat 7 2) as [Hrenders Hmesh].
  destruct (Hrenders (fun _ => constant_half) eq_refl) as [c Hc].
  exists c. split; [exact Hc|].
  destruct (Hmesh c Hc) as (H1 & H2 & H3 & _ & _ & _ & Hone & Hall).
  split; [exact H1|]. split; [exact H2|]. split; [exact H3|].
  split; [apply Hone; lra | exact Hall].
Defined.



(** C9.  At every clock time [t] the frame callback of [FarmField] sets
    the y rotation of the group to [sin (t * 0.3) * 0.06], a number of
    absolute value at most 0.06 (and does nothing while the ref is
    empty). *)
Theorem field_rotation_bounded :
  forall (t : R) (g : group),
    exists g' : group,
      FarmField_useFrame t (Some g) = Some g' /\
      rotation_y g' = sin (t * 0.3) * 0.06 /\
      Rabs (rotation_y g') <= 0.06 /\
      FarmField_useFrame t None = None.
Proof.
  intros t g. exists {| rotation_y := sin (t * 0.3) * 0.06 |}.
  split; [reflexivity|]. split; [reflexivity|]. split; [|reflexivity].
  simpl. pose proof (SIN_bound (t * 0.3)) as [Hlo Hhi].
  unfold Rabs. destruct (Rcase_abs (sin (t * 0.3) * 0.06)); lra.
Qed.

End SceneProperties.

(* ================================================================== *)
(** * Properties of the dashboard                                      *)
(* ================================================================== *)

Section DashProperties.

Import Dash.
Local Open Scope string_scope.
Local Open Scope nat_scope.
Local Open Scope list_scope.

(** ** The timer *)

Lemma mount_pending (t0 : nat) : pending 0 (mount t0).
Proof.
  unfold pending, mount. cbn.
  split; [lia|]. split; [reflexivity|].
  split; [exists (t0 + 400); split; [reflexivity | lia]|].
  repeat split; reflexivity.
Qed.

(** Without a pending timeout nothing assigns any more. *)
Lemma step_no_timer (d : dashboard) (e : happening) :
  timers d = [] ->
  timers (step d e) = [] /\
  assignments (step d e) = assignments d /\
  predictions_state (step d e) = predictions_state d.
Proof.
  intros Ht. destruct e as [ms|i|]; simpl.
  - unfold elapse. rewrite Ht. simpl. auto.
  - unfold pick. destruct (mounted d); [|auto].
    destruct (nth_error _ i); simpl; auto.
  - unfold unmount. destruct (cleanup d); simpl; rewrite ?Ht; simpl; auto.
Qed.

Lemma run_no_timer (es : list happening) : forall d,
  timers d = [] ->
  assignments (run es d) = assignments d /\
  predictions_state (run es d) = predictions_state d.
Proof.
  induction es as [|e es IH]; intros d Ht; simpl.
  - auto.
  - destruct (step_no_timer d e Ht) as (Ht' & Ha & Hp).
    destruct (IH (step d e) Ht') as (Ha' & Hp').
    rewrite Ha', Hp'. auto.
Qed.

Lemma elapse_fires (k ms : nat) (d : dashboard) :
  pending k d -> 400 <= k + ms ->
  timers (elapse ms d) = [] /\
  assignments (elapse ms d) = [placeholder] /\
  predictions_state (elapse ms d) = Some placeholder.
Proof.
  intros (Hk & Hm & (t & Ht & Hdue) & _ & Ha & _) Hle.
  unfold elapse. rewrite Ht. cbn [filter due].
  destruct (Nat.leb_spec t (now d + ms)) as [_|Hgt]; [|lia].
  cbn. rewrite Hm, Ha. auto.
Qed.

Lemma elapse_waits (k ms : nat) (d : dashboard) :
  pending k d -> k + ms < 400 -> pending (k + ms) (elapse ms d).
Proof.
  intros (Hk & Hm & (t & Ht & Hdue) & Hc & Ha & Hp) Hlt.
  unfold elapse. rewrite Ht. cbn [filter due].
  destruct (Nat.leb_spec t (now d + ms)) as [Hle|_]; [lia|].
  unfold pending. cbn.
  split; [exact Hlt|]. split; [exact Hm|].
  split; [exists t; split; [reflexivity | lia]|].
  auto.
Qed.

Lemma pick_pending (k i : nat) (d : dashboard) :
  pending k d -> pending k (pick i d).
Proof.
  intros Hp. unfold pick.
  destruct (mounted d) eqn:Hm; [|exact Hp].
  destruct (nth_error _ i); [|exact Hp].
  destruct Hp as (Hk & _ & Ht & Hc & Ha & Hs).
  unfold pending. cbn. rewrite Hm. auto 10.
Qed.

Lemma unmount_cancels (k : nat) (d : dashboard) :
  pending k d ->
  timers (unmount d) = [] /\
  assignments (unmount d) = [] /\
  predictions_state (unmount d) = None.
Proof.
  intros (Hk & Hm & (t & Ht & Hdue) & Hc & Ha & Hp).
  unfold unmount. rewrite Hc. cbn. rewrite Ht. cbn. auto.
Qed.

Lemma run_cons (e : happening) (es : list happening) (d : dashboard) :
  run (e :: es) d = run es (step d e).
Proof. reflexivity. Qed.

(** What a run of [es] leaves behind, by the time the component has
    spent mounted. *)
Lemma run_pending (es : list happening) : forall k d,
  pending k d ->
  assignments (run es d)
  = (if 400 <=? k + mounted_time es then [placeholder] else []) /\
  predictions_state (run es d)
  = (if 400 <=? k + mounted_time es then Some placeholder else None).
Proof.
  induction es as [|e es IH]; intros k d Hp.
  - cbn [run fold_left mounted_time]. rewrite Nat.add_0_r.
    destruct Hp as (Hk & _ & _ & _ & Ha & Hs).
    rewrite (proj2 (Nat.leb_gt 400 k) Hk). auto.
  - rewrite run_cons. destruct e as [ms|i|]; cbn [step mounted_time].
    + destruct (Nat.le_gt_cases 400 (k + ms)) as [Hle|Hlt].
      * destruct (elapse_fires k ms d Hp Hle) as (Ht & Ha & Hs).
        destruct (run_no_timer es (elapse ms d) Ht) as (Ha' & Hs').
        rewrite Ha', Hs', Ha, Hs.
        assert (Hfire : 400 <= k + (ms + mounted_time es)) by lia.
        rewrite (proj2 (Nat.leb_le _ _) Hfire). auto.
      * destruct (IH (k + ms) (elapse ms d) (elapse_waits k ms d Hp Hlt)) as (Ha & Hs).
        rewrite Ha, Hs, Nat.add_assoc. auto.
    + apply IH. apply pick_pending. exact Hp.
    + destruct (unmount_cancels k d Hp) as (Ht & Ha & Hs).
      destruct (run_no_timer es (unmount d) Ht) as (Ha' & Hs').
      rewrite Ha', Hs', Ha, Hs, Nat.add_0_r.
      destruct Hp as (Hk & _).
      rewrite (proj2 (Nat.leb_gt 400 k) Hk). auto.
Qed.

Lemma run_mount (t0 : nat) (es : list happening) :
  assignments (run es (mount t0))
  = (if 400 <=? mounted_time es then [placeholder] else []) /\
  predictions_state (run es (mount t0))
  = (if 400 <=? mounted_time es then Some placeholder else None).
Proof.
  exact (run_pending es 0 (mount t0) (mount_pending t0)).
Qed.

Lemma mounted_time_unmount (pre post : list happening) :
  mounted_time (pre ++ Unmount :: post) = mounted_time pre.
Proof.
  induction pre as [|e pre IH]; simpl.
  - reflexivity.
  - destruct e; simpl; rewrite ?IH; reflexivity.
Qed.

Lemma mounted_time_app (es es' : list happening) :
  mounted_time es <= mounted_time (es ++ es').
Proof.
  induction es as [|e es IH]; simpl.
  - lia.
  - destruct e; simpl; lia.
Qed.

(** ** The language *)

Lemma fold_tasks_language (l : list timer) : forall d,
  selectedLanguage (fold_left (fun acc tm => run_task (callback tm) acc) l d)
  = selectedLanguage d.
Proof.
  induction l as [|tm l IH]; intros d; simpl.
  - reflexivity.
  - rewrite IH. destruct (callback tm). reflexivity.
Qed.

Lemma step_language (d : dashboard) (e : happening) :
  In (selectedLanguage d) supported -> In (selectedLanguage (step d e)) supported.
Proof.
  intros Hin. destruct e as [ms|i|]; simpl.
  - unfold elapse. rewrite fold_tasks_language. exact Hin.
  - unfold pick. destruct (mounted d) eqn:Hm; [|exact Hin].
    destruct (nth_error (options (rendered_selector d)) i) as [code|] eqn:Hc;
      [|exact Hin].
    simpl. rewrite Hm. exact (nth_error_In _ i Hc).
  - unfold unmount. destruct (cleanup d); exact Hin.
Qed.

Lemma run_language (es : list happening) : forall d,
  In (selectedLanguage d) supported -> In (selectedLanguage (run es d)) supported.
Proof.
  induction es as [|e es IH]; intros d Hin; simpl.
  - exact Hin.
  - apply IH, step_language, Hin.
Qed.

(** ** The claims about the dashboard *)

(** C4.  One mount schedules the placeholder assignment once.  Whatever
    happens afterwards, [setPredictions] is called at most once and only
    with the placeholder record, the state being [null] until then; it is
    called, exactly once, as soon as the component has stayed mounted for
    400 ms; and when the component is unmounted before 400 ms have
    passed, it is never called and the state is never set, however long
    one waits afterwards. *)
Theorem placeholder_assigned_once_per_mount :
  forall (t0 : nat) (es : list happening),
    let d := run es (mount t0) in
    predictions_state (mount t0) = None /\
    List.length (assignments d) <= 1 /\
    (forall p, In p (assignments d) -> p = placeholder) /\
    (400 <= mounted_time es ->
       assignments d = [placeholder] /\ predictions_state d = Some placeholder) /\
    (forall pre post : list happening,
       es = pre ++ Unmount :: post -> mounted_time pre < 400 ->
       assignments d = [] /\ predictions_state d = None).
Proof.
  intros t0 es d.
  destruct (run_mount t0 es) as (Ha & Hs). fold d in Ha, Hs.
  split; [reflexivity|].
  split.
  { rewrite Ha. destruct (400 <=? mounted_time es); simpl; lia. }
  split.
  { intros p. rewrite Ha. destruct (400 <=? mounted_time es); simpl.
    - intros [H|[]]. symmetry. exact H.
    - intros []. }
  split.
  { intros Hle. rewrite Ha, Hs, (proj2 (Nat.leb_le _ _) Hle). auto. }
  intros pre post Hes Hlt.
  assert (Hmt : mounted_time es < 400).
  { rewrite Hes, mounted_time_unmount. exact Hlt. }
  rewrite Ha, Hs, (proj2 (Nat.leb_gt _ _) Hmt). auto.
Qed.

Lemma placeholder_assigned_once_per_mount_witness :
  (assignments (run [Elapse 250; Pick 1; Elapse 150; Elapse 1000] (mount 10))
   = [placeholder] /\
   predictions_state (run [Elapse 250; Pick 1; Elapse 150; Elapse 1000] (mount 10))
   = Some placeholder) /\
  (assignments (run ([Elapse 399] ++ Unmount :: [Elapse 1000]) (mount 10)) = [] /\
   predictions_state (run ([Elapse 399] ++ Unmount :: [Elapse 1000]) (mount 10)) = None).
Proof.
  split.
  - destruct (placeholder_assigned_once_per_mount 10
                [Elapse 250; Pick 1; Elapse 150; Elapse 1000]) as (_ & _ & _ & H & _).
    apply H. cbn [mounted_time]. lia.
  - destruct (placeholder_assigned_once_per_mount 10
                ([Elapse 399] ++ Unmount :: [Elapse 1000])) as (_ & _ & _ & _ & H).
    apply (H [Elapse 399] [Elapse 1000]).
    + reflexivity.
    + cbn [mounted_time]. lia.
Defined.

(** C5.  The selector offers the three codes and hands the code of a
    change event, as it is, to its callback; in the dashboard the value
    it shows is the selected language, which is one of ['en'], ['hi'],
    ['or'] at all times; and picking an option makes its code the selected
    language, whatever the language was before. *)
Theorem language_selector_reflects_supported_code :
  (forall (A : Type) (currentLang : string) (onLanguageChange : string -> A)
          (e : change_event),
      options (LanguageSelector currentLang onLanguageChange) = ["en"; "hi"; "or"] /\
      select_value (LanguageSelector currentLang onLanguageChange) = currentLang /\
      onChange (LanguageSelector currentLang onLanguageChange) e
      = onLanguageChange (target_value e)) /\
  (forall (t0 : nat) (es : list happening),
      select_value (rendered_selector (run es (mount t0)))
      = selectedLanguage (run es (mount t0)) /\
      In (selectedLanguage (run es (mount t0))) ["en"; "hi"; "or"]) /\
  (forall (d : dashboard) (i : nat) (code : string),
      mounted d = true ->
      nth_error (options (rendered_selector d)) i = Some code ->
      pick i d = setSelectedLanguage code d /\
      selectedLanguage (pick i d) = code).
Proof.
  split; [|split].
  - intros A currentLang onLanguageChange e. repeat split.
  - intros t0 es. split; [reflexivity|].
    apply (run_language es (mount t0)). simpl. auto.
  - intros d i code Hm Hc. unfold pick. rewrite Hm, Hc. simpl.
    split; [reflexivity|]. rewrite Hm. reflexivity.
Qed.

Lemma language_selector_reflects_supported_code_witness :
  selectedLanguage (mount 0) = "en" /\
  pick 1 (mount 0) = setSelectedLanguage "hi" (mount 0) /\
  selectedLanguage (pick 1 (mount 0)) = "hi".
Proof.
  split; [reflexivity|].
  destruct language_selector_reflects_supported_code as (_ & _ & H).
  apply (H (mount 0) 1 "hi"); reflexivity.
Defined.

(** C6.  The record the dashboard assigns is the literal of lines 135 to
    139: a trend of 7 numbers, as many as there are day labels, 4
    confidence scores, as many as crop labels, and 6 risk scores, as many
    as risk-factor labels; and once the state holds a record it is this
    one and stays this one, whatever happens next. *)
Theorem placeholder_shape_and_stability :
  (array_length (trend placeholder) = Some 7 /\
   List.length (labels (line (YieldPredictionCard (Some placeholder)))) = 7) /\
  (array_length (confidence placeholder) = Some 4 /\
   List.length (labels (bar (YieldPredictionCard (Some placeholder)))) = 4) /\
  (array_length (risks placeholder) = Some 6 /\
   List.length (labels (radar (YieldPredictionCard (Some placeholder)))) = 6) /\
  (forall (t0 : nat) (es es' : list happening),
      predictions_state (run es (mount t0)) <> None ->
      predictions_state (run es (mount t0)) = Some placeholder /\
      predictions_state (run (es ++ es') (mount t0)) = Some placeholder).
Proof.
  repeat (split; [split; reflexivity|]).
  intros t0 es es' Hset.
  destruct (run_mount t0 es) as (_ & Hs).
  destruct (run_mount t0 (es ++ es')) as (_ & Hs').
  destruct (Nat.leb_spec 400 (mounted_time es)) as [Hle|Hlt].
  - split; [exact Hs|].
    pose proof (mounted_time_app es es') as Hmono.
    assert (Hle' : 400 <= mounted_time (es ++ es')) by lia.
    rewrite Hs', (proj2 (Nat.leb_le _ _) Hle'). reflexivity.
  - exfalso. apply Hset. exact Hs.
Qed.

Lemma placeholder_shape_and_stability_witness :
  predictions_state (run [Elapse 400] (mount 0)) = Some placeholder /\
  predictions_state (run ([Elapse 400] ++ [Pick 2; Elapse 1000; Unmount; Elapse 7])
                       (mount 0)) = Some placeholder.
Proof.
  destruct placeholder_shape_and_stability as (_ & _ & _ & H).
  apply (H 0 [Elapse 400] [Pick 2; Elapse 1000; Unmount; Elapse 7]).
  vm_compute. discriminate.
Defined.

(** C7.  With [predictions] being [null] each chart draws its fallback
    literal; with a record whose field holds an array each chart draws
    exactly that array. *)
Theorem card_draws_fallback_or_provided :
  (drawn (line (YieldPredictionCard None))
   = Array [3.2; 3.3; 3.35; 3.4; 3.42; 3.45; 3.5]%R /\
   drawn (bar (YieldPredictionCard None))
   = Array [0.82; 0.76; 0.71; 0.79]%R /\
   drawn (radar (YieldPredictionCard None))
   = Array [60; 40; 70; 35; 45; 50]%R) /\
  (forall (p : predictions) (items : list R),
      trend p = Array items ->
      drawn (line (YieldPredictionCard (Some p))) = Array items) /\
  (forall (p : predictions) (items : list R),
      confidence p = Array items ->
      drawn (bar (YieldPredictionCard (Some p))) = Array items) /\
  (forall (p : predictions) (items : list R),
      risks p = Array items ->
      drawn (radar (YieldPredictionCard (Some p))) = Array items).
Proof.
  split; [repeat split|].
  repeat split; intros p items Hf; unfold drawn; simpl; rewrite Hf; reflexivity.
Qed.

(** A record without the field, or with a falsy value in it, falls back
    like [null]; an empty array does not. *)
Lemma card_falls_back_on_falsy_field (p : predictions) :
  truthy (trend p) = false ->
  drawn (line (YieldPredictionCard (Some p))) = Array fallback_trend.
Proof.
  intros Hf. unfold drawn. simpl. unfold or_else. rewrite Hf. reflexivity.
Qed.

Example card_draws_empty_array :
  drawn (line (YieldPredictionCard
                 (Some {| trend := Array []; confidence := Undefined; risks := Null |})))
  = Array [].
Proof. reflexivity. Qed.

Lemma card_draws_fallback_or_provided_witness :
  drawn (line (YieldPredictionCard (Some placeholder)))
  = Array [3.2; 3.31; 3.35; 3.41; 3.46; 3.5; 3.58]%R /\
  drawn (bar (YieldPredictionCard (Some placeholder)))
  = Array [0.84; 0.76; 0.72; 0.8]%R /\
  drawn (radar (YieldPredictionCard (Some placeholder)))
  = Array [55; 42; 68; 35; 45; 51]%R.
Proof.
  destruct card_draws_fallback_or_provided as (_ & Ht & Hc & Hr).
  split; [|split].
  - apply (Ht placeholder). reflexivity.
  - apply (Hc placeholder). reflexivity.
  - apply (Hr placeholder). reflexivity.
Defined.

(** C10.  Whatever the [predictions] prop, the labels of the three charts
    are the seven day labels, the four crop names and the six risk-factor
    names; so they are the same for any two props. *)
Theorem card_labels_do_not_depend_on_predictions :
  forall p q : option predictions,
    labels (line (YieldPredictionCard p))
    = ["Day 1"; "Day 2"; "Day 3"; "Day 4"; "Day 5"; "Day 6"; "Day 7"] /\
    labels (bar (YieldPredictionCard p))
    = ["Rice"; "Wheat"; "Maize"; "Sugarcane"] /\
    labels (radar (YieldPredictionCard p))
    = ["Rainfall"; "Temperature"; "Soil Moisture"; "N"; "P"; "K"] /\
    labels (line (YieldPredictionCard p)) = labels (line (YieldPredictionCard q)) /\
    labels (bar (YieldPredictionCard p)) = labels (bar (YieldPredictionCard q)) /\
    labels (radar (YieldPredictionCard p)) = labels (radar (YieldPredictionCard q)).
Proof.
  intros p q. repeat split.
Qed.

End DashProperties.

(* ================================================================== *)
(** * Further properties of the setup scripts                          *)
(* ================================================================== *)

Section SetupRuns.

Import Setup.
Local Open Scope Z_scope.

(** Case analysis on what the host answers, one command at a time, and on
    an exit code once a guard looks at it. *)
Ltac split_host h :=
  repeat (first
    [ match goal with
      | |- context [match h ?c with NotFound => _ | Exited _ => _ end] =>
          destruct (h c) as [|?]
      end
    | match goal with
      | |- context [match ?z with Z0 => _ | Zpos _ => _ | Zneg _ => _ end] =>
          is_var z; destruct z
      end ];
    cbv beta iota).

(** One command whose answer the first premise of the goal restricts:
    the answers the premise excludes are dropped, and so are the runs
    that are over by then. *)
Ltac answer h c :=
  destruct (h c) as [|[|?|?]]; cbv beta iota;
  (let H := fresh "H" in
   intros H;
   try discriminate H;
   try (exfalso; apply H; reflexivity);
   clear H);
  try (intros; repeat split; reflexivity).

Ltac close_run :=
  first [ left; repeat split; reflexivity | right; repeat split; reflexivity ].

(** Whatever the host answers, either script ends in one of two ways:
    exit code 0 after all twelve commands with the success message
    printed, or exit code 1 without the success message, the last events
    being the failure message of the last command run, a guarded one, and
    the pause.  No other exit code is returned, also when a program
    returns one. *)
Theorem setup_runs_end_well_or_at_a_guard :
  forall h : host,
    (ends_well (Bat.execute h) \/ ends_at_guard (Bat.execute h)) /\
    (ends_well (Ps1.execute h) \/ ends_at_guard (Ps1.execute h)).
Proof.
  intros h. split.
  - cbv. split_host h; close_run.
  - cbv. split_host h; close_run.
Qed.

Lemma setup_ps1_run_witness :
  fst (Ps1.execute pip_backend_fails) = 1 /\
  commands_run (snd (Ps1.execute pip_backend_fails)) = upto PipBackend script_order.
Proof.
  assert (Hstart : forall c, In c installers -> pip_backend_fails c <> NotFound).
  { intros c [<-|[<-|[<-|[]]]]; discriminate. }
  pose proof (setup_ps1_run pip_backend_fails Hstart) as Hrun.
  vm_compute in Hrun. vm_compute. exact Hrun.
Defined.

(** Outside the two gaps of [setup.ps1] the two scripts agree: when each
    version check either cannot be started or succeeds, and the three
    install programs can be started, both scripts return the same exit
    code after running the same commands. *)
Theorem setup_scripts_agree :
  forall h : host,
    clear_cut (h PythonVersion) = true ->
    clear_cut (h NodeVersion) = true ->
    (forall c, In c installers -> h c <> NotFound) ->
    fst (Bat.execute h) = fst (Ps1.execute h) /\
    commands_run (snd (Bat.execute h)) = commands_run (snd (Ps1.execute h)).
Proof.
  intros h Hpy Hnode Hstart.
  assert (Hnpm := Hstart NpmInstall (or_introl eq_refl)).
  assert (Hpb := Hstart PipBackend (or_intror (or_introl eq_refl))).
  assert (Hpm := Hstart PipMl (or_intror (or_intror (or_introl eq_refl)))).
  clear Hstart. revert Hpy Hnode Hnpm Hpb Hpm.
  cbv.
  answer h PythonVersion. answer h NodeVersion. answer h NpmInstall.
  answer h PipBackend. answer h PipMl.
Qed.

Lemma setup_scripts_agree_witness :
  fst (Bat.execute no_node) = fst (Ps1.execute no_node) /\
  commands_run (snd (Bat.execute no_node)) = commands_run (snd (Ps1.execute no_node)).
Proof.
  apply (setup_scripts_agree no_node); try reflexivity.
  intros c [<-|[<-|[<-|[]]]]; discriminate.
Defined.

(** Only the five guarded commands can stop a script: when they succeed,
    both scripts run to the end, print the success message and exit with
    code 0, whatever the directory changes, the creation of the virtual
    environments and their activation did. *)
Theorem setup_unguarded_steps_never_stop :
  forall h : host,
    (forall c, In c guarded -> h c = Exited 0) ->
    ends_well (Bat.execute h) /\ ends_well (Ps1.execute h).
Proof.
  intros h Hok.
  assert (H1 := Hok PythonVersion (or_introl eq_refl)).
  assert (H2 := Hok NodeVersion (or_intror (or_introl eq_refl))).
  assert (H3 := Hok NpmInstall (or_intror (or_intror (or_introl eq_refl)))).
  assert (H4 := Hok PipBackend
                  (or_intror (or_intror (or_intror (or_introl eq_refl))))).
  assert (H5 := Hok PipMl
                  (or_intror (or_intror (or_intror (or_intror (or_introl eq_refl)))))).
  clear Hok. revert H1 H2 H3 H4 H5.
  cbv.
  answer h PythonVersion. answer h NodeVersion. answer h NpmInstall.
  answer h PipBackend. answer h PipMl.
Qed.

Lemma setup_unguarded_steps_never_stop_witness :
  ends_well (Bat.execute only_guarded_work) /\
  ends_well (Ps1.execute only_guarded_work).
Proof.
  apply (setup_unguarded_steps_never_stop only_guarded_work).
  intros c [<-|[<-|[<-|[<-|[<-|[]]]]]]; reflexivity.
Defined.

End SetupRuns.

(* ================================================================== *)
(** * Further properties of the 3D crop field                          *)
(* ================================================================== *)

Section SceneRuns.

Import Scene.
Local Open Scope R_scope.

(** ** The seeds in closed form *)

Lemma fill_seeded (w : realm) (g : generator) (b : nat) : forall n a values,
  fill w (Some g) n {| from_rng := 4 * a; from_random := b |} values
  = (values ++ map (seed_at g) (seq a n),
     {| from_rng := 4 * (a + n); from_random := b |}).
Proof.
  induction n as [|n IH]; intros a values.
  - cbn [fill seq map]. rewrite app_nil_r, Nat.add_0_r. reflexivity.
  - cbn [fill push_seed next from_rng from_random].
    replace (S (S (S (S (4 * a))))) with (4 * S a)%nat by lia.
    rewrite IH. cbn [seq map]. rewrite <- app_assoc. cbn [app].
    unfold seed_at.
    replace (4 * a + 1)%nat with (S (4 * a)) by lia.
    replace (4 * a + 2)%nat with (S (S (4 * a))) by lia.
    replace (4 * a + 3)%nat with (S (S (S (4 * a)))) by lia.
    replace (S a + n)%nat with (a + S n)%nat by lia.
    reflexivity.
Qed.

Lemma seeds_closed_form (w : realm) ctor (count : nat) :
  Math_seedrandom w = Some ctor ->
  seeds w count
  = Normal (map (seed_at (ctor (Some "krishi"%string))) (seq 0 count)).
Proof.
  intros Hsome. unfold seeds.
  rewrite (make_rng_with_seedrandom w ctor Hsome). cbn [and_then].
  change 0%nat with (4 * 0)%nat at 1.
  rewrite fill_seeded. reflexivity.
Qed.

Lemma seeds_need_seedrandom (w : realm) (count : nat) (values : list seed) :
  seeds w count = Normal values -> exists ctor, Math_seedrandom w = Some ctor.
Proof.
  unfold seeds, make_rng.
  destruct (Math_seedrandom w) as [ctor|]; simpl; [|discriminate].
  intros _. exists ctor. reflexivity.
Qed.

(** ** The frame in closed form *)

Lemma write_middle (m a : matrix) : forall (pre rest : list matrix),
  write (List.length pre) m (pre ++ a :: rest) = pre ++ m :: rest.
Proof.
  induction pre as [|b pre IH]; intros rest; simpl.
  - reflexivity.
  - rewrite IH. reflexivity.
Qed.

Lemma forEach_overwrites (t g : R) (n : nat) : forall l pre rest,
  List.length rest = List.length l ->
  forEach t g l (List.length pre) {| mesh_count := n; instanceMatrix := pre ++ rest |}
  = {| mesh_count := n; instanceMatrix := pre ++ map (place t g) l |}.
Proof.
  induction l as [|s l IH]; intros pre rest Hlen.
  - destruct rest; [|discriminate]. reflexivity.
  - destruct rest as [|a rest]; [discriminate|].
    cbn [forEach]. unfold setMatrixAt. cbn [mesh_count instanceMatrix].
    rewrite write_middle.
    replace (pre ++ place t g s :: rest) with ((pre ++ [place t g s]) ++ rest)
      by (rewrite <- app_assoc; reflexivity).
    replace (S (List.length pre)) with (List.length (pre ++ [place t g s]))
      by (rewrite length_app; simpl; lia).
    rewrite IH by (simpl in Hlen; lia).
    rewrite <- app_assoc. reflexivity.
Qed.

Lemma frame_closed_form (w : realm) (count : nat) (c : crops) (t score : R) :
  InstancedCrops w count = Normal c ->
  InstancedCrops_useFrame t score c
  = {| memo_count := count;
       memo_seeds := memo_seeds c;
       meshRef := {| mesh_count := count;
                     instanceMatrix :=
                       map (place t (clamp score 0 1)) (memo_seeds c) |} |}.
Proof.
  unfold InstancedCrops.
  destruct (seeds w count) as [values|e] eqn:Hv; simpl; [|discriminate].
  intros H. injection H as <-.
  unfold InstancedCrops_useFrame, InstancedMesh. cbn [memo_count memo_seeds meshRef].
  f_equal.
  apply (forEach_overwrites t (clamp score 0 1) count values [] (repeat identity count)).
  rewrite repeat_length. symmetry. exact (seeds_length w count values Hv).
Qed.


Lemma clamp_monotone (p q : R) : p <= q -> clamp p 0 1 <= clamp q 0 1.
Proof.
  intros Hpq. unfold clamp, Rmin.
  destruct (Rle_dec 1 p); destruct (Rle_dec 1 q); unfold Rmax;
    repeat match goal with
           | |- context [Rle_dec ?a ?b] => destruct (Rle_dec a b)
           end; lra.
Qed.

Lemma clamp_low (p : R) : p <= 0 -> clamp p 0 1 = 0.
Proof.
  intros Hp. unfold clamp, Rmin.
  destruct (Rle_dec 1 p); unfold Rmax;
    repeat match goal with
           | |- context [Rle_dec ?a ?b] => destruct (Rle_dec a b)
           end; lra.
Qed.

Lemma clamp_high (p : R) : 1 <= p -> clamp p 0 1 = 1.
Proof.
  intros Hp. unfold clamp, Rmin.
  destruct (Rle_dec 1 p); unfold Rmax;
    repeat match goal with
           | |- context [Rle_dec ?a ?b] => destruct (Rle_dec a b)
           end; lra.
Qed.

(** ** What the seeds are *)

(** The seeds never depend on [Math.random]: two environments with the
    same [Math.seedrandom] give the same result, whatever their
    [Math.random] returns. *)
Theorem seeds_ignore_Math_random :
  forall (F : option (option string -> generator)) (random random' : generator)
         (count : nat),
    seeds {| Math_seedrandom := F; Math_random := random |} count
    = seeds {| Math_seedrandom := F; Math_random := random' |} count.
Proof.
  intros [ctor|] random random' count.
  - rewrite (seeds_closed_form
               {| Math_seedrandom := Some ctor; Math_random := random |}
               ctor count eq_refl).
    rewrite (seeds_closed_form
               {| Math_seedrandom := Some ctor; Math_random := random' |}
               ctor count eq_refl).
    reflexivity.
  - reflexivity.
Qed.

(** With seedrandom loaded the generator seeded with ['krishi'] is called
    exactly four times per crop, in the order x, z, h, r: seed [i] is made
    of its calls number [4 i] to [4 i + 3]. *)
Theorem seeds_draw_order :
  forall (w : realm) ctor (count : nat),
    Math_seedrandom w = Some ctor ->
    exists values : list seed,
      seeds w count = Normal values /\
      List.length values = count /\
      forall i : nat, (i < count)%nat ->
        nth_error values i = Some (seed_at (ctor (Some "krishi"%string)) i).
Proof.
  intros w ctor count Hsome.
  exists (map (seed_at (ctor (Some "krishi"%string))) (seq 0 count)).
  split; [exact (seeds_closed_form w ctor count Hsome)|].
  split; [rewrite length_map, length_seq; reflexivity|].
  intros i Hi.
  apply map_nth_error.
  rewrite (nth_error_nth' (seq 0 count) 0%nat) by (rewrite length_seq; exact Hi).
  rewrite seq_nth by exact Hi. reflexivity.
Qed.

Lemma seeds_draw_order_witness :
  exists values : list seed,
    seeds with_seedrandom 2 = Normal values /\
    List.length values = 2%nat /\
    forall i : nat, (i < 2)%nat ->
      nth_error values i = Some (seed_at constant_half i).
Proof.
  apply (seeds_draw_order with_seedrandom (fun _ => constant_half) 2).
  reflexivity.
Defined.

(** Asking for more crops keeps the ones there are: the seeds for [n]
    crops are the first [n] of the seeds for [n + k] crops. *)
Theorem seeds_prefix_stable :
  forall (w : realm) (n k : nat) (fewer more : list seed),
    seeds w n = Normal fewer ->
    seeds w (n + k) = Normal more ->
    firstn n more = fewer.
Proof.
  intros w n k fewer more Hfewer Hmore.
  destruct (seeds_need_seedrandom w n fewer Hfewer) as [ctor Hsome].
  rewrite (seeds_closed_form w ctor n Hsome) in Hfewer.
  rewrite (seeds_closed_form w ctor (n + k) Hsome) in Hmore.
  injection Hfewer as <-. injection Hmore as <-.
  rewrite seq_app, map_app, firstn_app.
  rewrite length_map, length_seq, Nat.sub_diag. cbn [firstn].
  rewrite app_nil_r. apply firstn_all2.
  rewrite length_map, length_seq. lia.
Qed.

Lemma seeds_prefix_stable_witness :
  firstn 1 [seed_at constant_half 0; seed_at constant_half 1]
  = [seed_at constant_half 0].
Proof.
  apply (seeds_prefix_stable with_seedrandom 1 1); reflexivity.
Defined.

(** ** What a frame does *)

(** A frame rewrites every instance from its seed, the clock and the
    score alone: the instance buffer after a frame is the list of the
    seeds' matrices, and nothing of an earlier frame is left in it. *)
Theorem frame_overwrites_every_instance :
  forall (w : realm) (count : nat) (c : crops) (t1 s1 t2 s2 : R),
    InstancedCrops w count = Normal c ->
    instanceMatrix (meshRef (InstancedCrops_useFrame t2 s2 c))
    = map (place t2 (clamp s2 0 1)) (memo_seeds c) /\
    InstancedCrops_useFrame t2 s2 (InstancedCrops_useFrame t1 s1 c)
    = InstancedCrops_useFrame t2 s2 c.
Proof.
  intros w count c t1 s1 t2 s2 Hc.
  rewrite (frame_closed_form w count c t2 s2 Hc).
  split; [reflexivity|].
  rewrite (frame_closed_form w count c t1 s1 Hc).
  unfold InstancedCrops_useFrame. cbn [memo_count memo_seeds meshRef].
  f_equal.
  apply (forEach_overwrites t2 (clamp s2 0 1) count (memo_seeds c) []).
  apply length_map.
Qed.

Lemma frame_overwrites_every_instance_witness :
  instanceMatrix (meshRef (InstancedCrops_useFrame 5 1 two_crops))
  = map (place 5 (clamp 1 0 1)) (memo_seeds two_crops) /\
  InstancedCrops_useFrame 5 1 (InstancedCrops_useFrame 3 0 two_crops)
  = InstancedCrops_useFrame 5 1 two_crops.
Proof.
  apply (frame_overwrites_every_instance with_seedrandom 2). reflexivity.
Defined.



(** The height of a generated stalk saturates outside [[0, 1]]: it is
    0.3 at every finite score of 0 or less and the seed's own height at
    every finite score of 1 or more; a score inside [[0, 1]] is used as
    it is. *)
Theorem height_saturates :
  forall (w : realm) (count : nat) (values : list seed) (s : seed)
         (t predictionScore : R),
    seeds w count = Normal values ->
    In s values ->
    (predictionScore <= 0 ->
       vy (scale (place t (clamp predictionScore 0 1) s)) = 0.3) /\
    (1 <= predictionScore ->
       vy (scale (place t (clamp predictionScore 0 1) s)) = h s) /\
    (0 <= predictionScore <= 1 ->
       clamp predictionScore 0 1 = predictionScore /\
       vy (scale (place t (clamp predictionScore 0 1) s))
       = (1 - predictionScore) * 0.3 + predictionScore * h s).
Proof.
  intros w count values s t p _ _.
  change (vy (scale (place t (clamp p 0 1) s)))
    with ((1 - clamp p 0 1) * 0.3 + clamp p 0 1 * h s).
  split; [|split].
  - intros Hp. rewrite (clamp_low p Hp). lra.
  - intros Hp. rewrite (clamp_high p Hp). lra.
  - intros Hp. rewrite (clamp_inside p Hp). split; reflexivity.
Qed.

Lemma height_saturates_witness :
  vy (scale (place 5 (clamp (-3) 0 1) (seed_at constant_half 0))) = 0.3 /\
  vy (scale (place 5 (clamp 2 0 1) (seed_at constant_half 0)))
  = h (seed_at constant_half 0) /\
  clamp 0.25 0 1 = 0.25.
Proof.
  destruct (height_saturates with_seedrandom 1 [seed_at constant_half 0]
              (seed_at constant_half 0) 5 (-3) eq_refl (or_introl eq_refl))
    as (Hlow & _ & _).
  destruct (height_saturates with_seedrandom 1 [seed_at constant_half 0]
              (seed_at constant_half 0) 5 2 eq_refl (or_introl eq_refl))
    as (_ & Hhigh & _).
  destruct (height_saturates with_seedrandom 1 [seed_at constant_half 0]
              (seed_at constant_half 0) 5 0.25 eq_refl (or_introl eq_refl))
    as (_ & _ & Hmid).
  split; [apply Hlow; lra|]. split; [apply Hhigh; lra|].
  apply Hmid. lra.
Defined.

(** ** Stable per mount *)

(** Once mounted, the component keeps its seeds through any sequence of
    frames and re-renders that pass the same [count]: no re-render
    computes them again, so none can throw, also in an environment
    without seedrandom. *)
Theorem seeds_stable_per_mount :
  forall (w : realm) (count : nat) (c : crops) (ticks : list tick),
    InstancedCrops w count = Normal c ->
    same_count count ticks ->
    exists c' : crops,
      play ticks c = Normal c' /\
      memo_seeds c' = memo_seeds c /\
      mesh_count (meshRef c') = count.
Proof.
  intros w count c ticks Hc Hsame.
  assert (Hkey : memo_count c = count /\ mesh_count (meshRef c) = count).
  { unfold InstancedCrops in Hc.
    destruct (seeds w count) as [values|e]; simpl in Hc; [|discriminate].
    injection Hc as <-. split; reflexivity. }
  clear Hc. revert c Hkey Hsame.
  induction ticks as [|[t score|w' n] ticks IH]; intros c [Hcount Hmesh] Hsame.
  - exists c. repeat split; assumption.
  - cbn [play]. cbn [same_count] in Hsame.
    destruct (IH (InstancedCrops_useFrame t score c)) as (c' & Hplay & Hseeds & Hm).
    + unfold InstancedCrops_useFrame. cbn [memo_count meshRef].
      rewrite forEach_count. split; assumption.
    + exact Hsame.
    + exists c'. repeat split; assumption.
  - cbn [play]. cbn [same_count] in Hsame. destruct Hsame as [-> Hsame].
    unfold rerender. rewrite Hcount, Nat.eqb_refl. cbn [and_then].
    apply IH; [split; assumption | exact Hsame].
Qed.

Lemma seeds_stable_per_mount_witness :
  exists c' : crops,
    play [Frame 1 0.7; Render (without_seedrandom constant_half) 2; Frame 2 0.9]
         two_crops = Normal c' /\
    memo_seeds c' = memo_seeds two_crops /\
    mesh_count (meshRef c') = 2%nat.
Proof.
  apply (seeds_stable_per_mount with_seedrandom 2).
  - reflexivity.
  - cbn. auto.
Defined.

End SceneRuns.

(* ================================================================== *)
(** * Further properties of the dashboard                              *)
(* ================================================================== *)

Section DashRuns.

Import Dash.
Local Open Scope string_scope.
Local Open Scope nat_scope.
Local Open Scope list_scope.

Lemma run_app (es es' : list happening) (d : dashboard) :
  run (es ++ es') d = run es' (run es d).
Proof. unfold run. apply fold_left_app. Qed.

(** ** The pending timeout *)

Lemma run_timers_empty (es : list happening) : forall d,
  timers d = [] -> timers (run es d) = [].
Proof.
  induction es as [|e es IH]; intros d Ht.
  - exact Ht.
  - rewrite run_cons. apply IH. apply (step_no_timer d e Ht).
Qed.

Lemma elapse_keeps_timer (k ms : nat) (d : dashboard) :
  pending k d -> k + ms < 400 -> timers (elapse ms d) = timers d.
Proof.
  intros (Hk & Hm & (t & Ht & Hdue) & _) Hlt.
  unfold elapse. rewrite Ht. cbn [filter due].
  destruct (Nat.leb_spec t (now d + ms)) as [Hle|_]; [lia|].
  reflexivity.
Qed.

Lemma pick_keeps_timer (i : nat) (d : dashboard) :
  timers (pick i d) = timers d.
Proof.
  unfold pick. destruct (mounted d); [|reflexivity].
  destruct (nth_error _ i); reflexivity.
Qed.

Lemma run_pending_timers (es : list happening) : forall k d,
  pending k d ->
  timers (run es d)
  = (if negb (has_unmount es) && (k + mounted_time es <? 400)
     then timers d else []).
Proof.
  induction es as [|e es IH]; intros k d Hp.
  - cbn [run fold_left has_unmount existsb negb andb mounted_time].
    rewrite Nat.add_0_r. destruct Hp as (Hk & _).
    rewrite (proj2 (Nat.ltb_lt k 400) Hk). reflexivity.
  - rewrite run_cons. destruct e as [ms|i|]; cbn [step mounted_time].
    + change (has_unmount (Elapse ms :: es)) with (has_unmount es).
      destruct (Nat.le_gt_cases 400 (k + ms)) as [Hle|Hlt].
      * destruct (elapse_fires k ms d Hp Hle) as (Ht & _).
        rewrite (run_timers_empty es _ Ht).
        assert (Hge : ~ k + (ms + mounted_time es) < 400) by lia.
        rewrite (proj2 (Nat.ltb_nlt _ _) Hge), andb_false_r. reflexivity.
      * rewrite (IH (k + ms) (elapse ms d) (elapse_waits k ms d Hp Hlt)).
        rewrite (elapse_keeps_timer k ms d Hp Hlt), Nat.add_assoc. reflexivity.
    + change (has_unmount (Pick i :: es)) with (has_unmount es).
      rewrite (IH k (pick i d) (pick_pending k i d Hp)).
      rewrite pick_keeps_timer. reflexivity.
    + destruct (unmount_cancels k d Hp) as (Ht & _).
      rewrite (run_timers_empty es _ Ht). reflexivity.
Qed.

(** Where a run can lead: the assignment is still scheduled, or no
    timeout is pending. *)
Lemma run_reaches (es : list happening) : forall k d,
  pending k d ->
  (exists k', pending k' (run es d)) \/ timers (run es d) = [].
Proof.
  induction es as [|e es IH]; intros k d Hp.
  - left. exists k. exact Hp.
  - rewrite run_cons. destruct e as [ms|i|]; cbn [step].
    + destruct (Nat.le_gt_cases 400 (k + ms)) as [Hle|Hlt].
      * right. apply run_timers_empty. apply (elapse_fires k ms d Hp Hle).
      * apply (IH (k + ms)). apply elapse_waits; assumption.
    + apply (IH k). apply pick_pending. exact Hp.
    + right. apply run_timers_empty. apply (unmount_cancels k d Hp).
Qed.

(** ** Mounted or not *)

Lemma fold_tasks_mounted (l : list timer) : forall d,
  mounted (fold_left (fun acc tm => run_task (callback tm) acc) l d) = mounted d.
Proof.
  induction l as [|tm l IH]; intros d; simpl.
  - reflexivity.
  - rewrite IH. destruct (callback tm). reflexivity.
Qed.

Lemma run_mounted (es : list happening) : forall d,
  mounted (run es d) = mounted d && negb (has_unmount es).
Proof.
  induction es as [|e es IH]; intros d.
  - cbn. rewrite andb_true_r. reflexivity.
  - rewrite run_cons, IH. destruct e as [ms|i|]; cbn [step].
    + unfold elapse. rewrite fold_tasks_mounted. reflexivity.
    + unfold pick. destruct (mounted d) eqn:Hm; [|rewrite Hm; reflexivity].
      destruct (nth_error _ i); cbn; rewrite ?Hm; reflexivity.
    + unfold unmount. cbn. rewrite andb_false_r. reflexivity.
Qed.

Lemma step_unmounted (d : dashboard) (e : happening) :
  mounted d = false -> timers d = [] ->
  mounted (step d e) = false /\ timers (step d e) = [] /\
  predictions_state (step d e) = predictions_state d /\
  selectedLanguage (step d e) = selectedLanguage d /\
  assignments (step d e) = assignments d.
Proof.
  intros Hm Ht.
  destruct (step_no_timer d e Ht) as (Ht' & Ha & Hs).
  repeat split; try assumption.
  - destruct e as [ms|i|]; cbn [step].
    + unfold elapse. rewrite fold_tasks_mounted. exact Hm.
    + unfold pick. rewrite Hm. exact Hm.
    + reflexivity.
  - destruct e as [ms|i|]; cbn [step].
    + unfold elapse. rewrite fold_tasks_language. reflexivity.
    + unfold pick. rewrite Hm. reflexivity.
    + unfold unmount. destruct (cleanup d); reflexivity.
Qed.

Lemma run_unmounted (es : list happening) : forall d,
  mounted d = false -> timers d = [] ->
  mounted (run es d) = false /\ timers (run es d) = [] /\
  predictions_state (run es d) = predictions_state d /\
  selectedLanguage (run es d) = selectedLanguage d /\
  assignments (run es d) = assignments d.
Proof.
  induction es as [|e es IH]; intros d Hm Ht.
  - repeat split; assumption.
  - rewrite run_cons.
    destruct (step_unmounted d e Hm Ht) as (Hm' & Ht' & Hs & Hl & Ha).
    destruct (IH (step d e) Hm' Ht') as (Hm'' & Ht'' & Hs' & Hl' & Ha').
    rewrite Hs', Hl', Ha'. repeat split; assumption.
Qed.

Lemma run_one (e : happening) (d : dashboard) : run [e] d = step d e.
Proof. reflexivity. Qed.

Lemma run_no_pick (es : list happening) : forall d,
  has_pick es = false -> selectedLanguage (run es d) = selectedLanguage d.
Proof.
  induction es as [|e es IH]; intros d Hno.
  - reflexivity.
  - rewrite run_cons. destruct e as [ms|i|]; cbn in Hno; try discriminate Hno;
      rewrite (IH _ Hno); cbn [step].
    + unfold elapse. rewrite fold_tasks_language. reflexivity.
    + unfold unmount. destruct (cleanup d); reflexivity.
Qed.

(** ** What the dashboard shows and keeps *)

(** What the three charts draw follows the timer: the fallback arrays
    until the component has been mounted for 400 ms, the placeholder
    arrays from then on; at every moment each chart draws as many numbers
    as it has labels (7, 4 and 6). *)
Theorem charts_follow_the_timer :
  forall (t0 : nat) (es : list happening),
    let shown := Dashboard_card (run es (mount t0)) in
    drawn (line shown)
    = (if 400 <=? mounted_time es then trend placeholder else Array fallback_trend) /\
    drawn (bar shown)
    = (if 400 <=? mounted_time es then confidence placeholder
       else Array fallback_confidence) /\
    drawn (radar shown)
    = (if 400 <=? mounted_time es then risks placeholder else Array fallback_risks) /\
    array_length (drawn (line shown)) = Some (List.length (labels (line shown))) /\
    array_length (drawn (bar shown)) = Some (List.length (labels (bar shown))) /\
    array_length (drawn (radar shown)) = Some (List.length (labels (radar shown))).
Proof.
  intros t0 es shown. subst shown. unfold Dashboard_card.
  destruct (run_mount t0 es) as (_ & Hs). rewrite Hs.
  destruct (400 <=? mounted_time es); repeat split.
Qed.

(** The fallback is per chart: for a record whose fields each hold an
    array or nothing, every chart draws an array, its own field's when
    that is an array (an empty one included) and its own fallback
    otherwise, whatever the other two fields hold. *)
Theorem card_falls_back_per_chart :
  forall o : predictions,
    array_or_absent (trend o) = true ->
    array_or_absent (confidence o) = true ->
    array_or_absent (risks o) = true ->
    drawn (line (YieldPredictionCard (Some o)))
    = Array (provided_or fallback_trend (trend o)) /\
    drawn (bar (YieldPredictionCard (Some o)))
    = Array (provided_or fallback_confidence (confidence o)) /\
    drawn (radar (YieldPredictionCard (Some o)))
    = Array (provided_or fallback_risks (risks o)).
Proof.
  intros [tr co ri]. cbn [trend confidence risks].
  intros Ht Hc Hr. unfold drawn. cbn.
  destruct tr; try discriminate Ht;
    destruct co; try discriminate Hc;
    destruct ri; try discriminate Hr;
    repeat split.
Qed.

Lemma card_falls_back_per_chart_witness :
  drawn (line (YieldPredictionCard
                 (Some {| trend := Array []; confidence := Undefined;
                          risks := Array [1; 2]%R |})))
  = Array [] /\
  drawn (bar (YieldPredictionCard
                (Some {| trend := Array []; confidence := Undefined;
                         risks := Array [1; 2]%R |})))
  = Array fallback_confidence /\
  drawn (radar (YieldPredictionCard
                  (Some {| trend := Array []; confidence := Undefined;
                           risks := Array [1; 2]%R |})))
  = Array [1; 2]%R.
Proof.
  apply (card_falls_back_per_chart
           {| trend := Array []; confidence := Undefined; risks := Array [1; 2]%R |});
    reflexivity.
Defined.

(** The effect's timeout, due 400 ms after the mount, is the only timeout
    there ever is: it stays pending, with its due time unchanged by time
    steps and language picks, until it fires or the component unmounts,
    and no timeout is pending afterwards. *)
Theorem effect_timeout_is_the_only_one :
  forall (t0 : nat) (es : list happening),
    timers (run es (mount t0))
    = (if negb (has_unmount es) && (mounted_time es <? 400)
       then [effect_timer t0] else []).
Proof.
  intros t0 es.
  rewrite (run_pending_timers es 0 (mount t0) (mount_pending t0)).
  reflexivity.
Qed.

(** After the unmount nothing changes any more: whatever happens next, no
    timeout is pending, and the predictions, the selected language and
    the calls of [setPredictions] are those at the unmount. *)
Theorem unmounted_dashboard_is_inert :
  forall (t0 : nat) (es post : list happening),
    let at_unmount := run (es ++ [Unmount]) (mount t0) in
    let later := run (es ++ Unmount :: post) (mount t0) in
    mounted later = false /\
    timers later = [] /\
    predictions_state later = predictions_state at_unmount /\
    selectedLanguage later = selectedLanguage at_unmount /\
    assignments later = assignments at_unmount.
Proof.
  intros t0 es post at_unmount later. subst at_unmount later.
  replace (es ++ Unmount :: post) with ((es ++ [Unmount]) ++ post)
    by (rewrite <- app_assoc; reflexivity).
  rewrite (run_app (es ++ [Unmount]) post).
  apply run_unmounted.
  - rewrite run_app, run_one. reflexivity.
  - rewrite run_app, run_one. cbn [step].
    destruct (run_reaches es 0 (mount t0) (mount_pending t0)) as [[k Hp]|Ht].
    + apply (unmount_cancels k _ Hp).
    + apply (step_no_timer _ Unmount Ht).
Qed.

(** The selected language follows the picks and nothing else: it is
    ['en'] as long as nothing was picked, the passing of time does not
    change it, and picking an option of the mounted dashboard makes that
    option's code the language. *)
Theorem language_follows_the_picks :
  forall (t0 : nat) (es : list happening),
    (has_pick es = false -> selectedLanguage (run es (mount t0)) = "en") /\
    (forall ms : nat,
        selectedLanguage (run (es ++ [Elapse ms]) (mount t0))
        = selectedLanguage (run es (mount t0))) /\
    (forall (i : nat) (code : string),
        has_unmount es = false ->
        nth_error supported i = Some code ->
        selectedLanguage (run (es ++ [Pick i]) (mount t0)) = code).
Proof.
  intros t0 es. split; [|split].
  - intros Hno. rewrite (run_no_pick es (mount t0) Hno). reflexivity.
  - intros ms. rewrite run_app, run_one. cbn [step].
    unfold elapse. rewrite fold_tasks_language. reflexivity.
  - intros i code Hup Hc. rewrite run_app, run_one. cbn [step].
    assert (Hm : mounted (run es (mount t0)) = true).
    { rewrite run_mounted, Hup. reflexivity. }
    unfold pick. rewrite Hm.
    change (options (rendered_selector (run es (mount t0)))) with supported.
    rewrite Hc. unfold rendered_selector, LanguageSelector, setSelectedLanguage.
    cbn [onChange target_value selectedLanguage]. rewrite Hm. reflexivity.
Qed.

Lemma language_follows_the_picks_witness :
  selectedLanguage (run [Elapse 500] (mount 0)) = "en" /\
  selectedLanguage (run ([Elapse 100; Pick 2] ++ [Pick 1]) (mount 0)) = "hi".
Proof.
  split.
  - destruct (language_follows_the_picks 0 [Elapse 500]) as (H & _).
    apply H. reflexivity.
  - destruct (language_follows_the_picks 0 [Elapse 100; Pick 2]) as (_ & _ & H).
    apply (H 1 "hi"); reflexivity.
Defined.

End DashRuns.
